(** * ElectroMart customer console: the chat surface and the message renderer

    A shallow embedding of the client-side conversation logic:
    - [types.ts]: [Message], [ChatRequest], [ChatResponse], [AgentInfo];
    - [ChatInterface.tsx]: the [useState] cells of the component and its
      four handlers [handleSendMessage], [handleSuggestionClick],
      [handleClearChat], [handleVoiceInput];
    - [ChatMessage.tsx]: [getAgentStyle].

    JavaScript strings are sequences of UTF-16 code units.  A handler is a
    program in a small free monad whose commands are the React setters and
    the calls that leave the component (transport client, clock, identifier
    generator, speech device, console, input focus).  Running a program
    threads the component's cells and records every outgoing call together
    with the cells as they stand when the call is made. *)

From Stdlib Require Import List NArith String Ascii Bool Lia.
From Stdlib Require Import Floats.PrimFloat.
Import ListNotations.

Set Implicit Arguments.

(** ** JavaScript strings *)

Module Js.

(** A string is its list of UTF-16 code units. *)
Definition jsstring : Type := list N.

(** An ASCII literal of the source as a JavaScript string. *)
Definition lit (s : string) : jsstring :=
  List.map N_of_ascii (list_ascii_of_string s).

Fixpoint eqb (s t : jsstring) : bool :=
  match s, t with
  | [], [] => true
  | c :: s', d :: t' => N.eqb c d && eqb s' t'
  | _, _ => false
  end.

(** ECMAScript [WhiteSpace] and [LineTerminator] code points, the ones
    [String.prototype.trim] strips.  All of them lie in the basic plane. *)
Definition is_whitespace (c : N) : bool :=
  (N.eqb c 0x0009 || N.eqb c 0x000A || N.eqb c 0x000B || N.eqb c 0x000C
   || N.eqb c 0x000D || N.eqb c 0x0020 || N.eqb c 0x00A0 || N.eqb c 0x1680
   || (N.leb 0x2000 c && N.leb c 0x200A)
   || N.eqb c 0x2028 || N.eqb c 0x2029 || N.eqb c 0x202F || N.eqb c 0x205F
   || N.eqb c 0x3000 || N.eqb c 0xFEFF)%N.

(** [s.trimStart()] *)
Fixpoint trimStart (s : jsstring) : jsstring :=
  match s with
  | c :: s' => if is_whitespace c then trimStart s' else s
  | [] => []
  end.

(** [s.trimEnd()] *)
Fixpoint trimEnd (s : jsstring) : jsstring :=
  match s with
  | c :: s' =>
      match trimEnd s' with
      | [] => if is_whitespace c then [] else [c]
      | t => c :: t
      end
  | [] => []
  end.

(** [s.trim()] *)
Definition trim (s : jsstring) : jsstring := trimEnd (trimStart s).

(** [ToBoolean] on a string: only the empty string is falsy. *)
Definition truthy (s : jsstring) : bool :=
  match s with [] => false | _ :: _ => true end.

(** The text is empty or made of white space only. *)
Definition blank (s : jsstring) : bool := forallb is_whitespace s.

(** [a.slice(0, -1)]: the end index is [max (length + (-1)) 0]. *)
Definition slice_0_neg1 {A : Type} (a : list A) : list A :=
  firstn (List.length a - 1) a.

(** How an awaited or attempted call completes. *)
Inductive Completion (A : Type) : Type :=
| Normal (a : A)
| Throw (err : jsstring).
Arguments Throw {A} err.

End Js.
Import Js.

(** ** types.ts *)

Inductive MessageRole : Type := user | assistant | system.

(** [AgentType] is a union of string literals; at run time a value of the
    type is the string that came from the backend. *)
Definition AgentType : Type := jsstring.

(** A JavaScript [number] is an IEEE 754 binary64 value. *)
Definition number : Type := float.

Record AgentInfo : Type := {
  agent_type : AgentType;
  confidence : number
}.

Inductive SentimentLabel : Type := positive | negative | neutral.

Record SentimentInfo : Type := {
  label : SentimentLabel;
  score : number
}.

Record ChatRequest : Type := {
  message : jsstring;
  session_id : option jsstring;
  voice_input : option bool
}.

Record ChatResponse : Type := {
  response : jsstring;
  resp_session_id : jsstring;
  agent_info : AgentInfo;
  sentiment : option SentimentInfo;
  response_time_ms : number;
  resp_timestamp : jsstring;
  resp_suggestions : option (list jsstring)
}.

Record Message : Type := {
  role : MessageRole;
  content : jsstring;
  timestamp : jsstring;
  msg_agent_type : option AgentType
}.

(** ** ChatInterface.tsx: state *)

(** The instance built by the mount effect ([continuous], [interimResults]
    and [lang] as configured there). *)
Record SpeechRecognition : Type := {
  continuous : bool;
  interimResults : bool;
  lang : jsstring
}.

(** The eight [useState] cells of the component. *)
Record ChatInterfaceState : Type := {
  messages : list Message;
  inputValue : jsstring;
  isLoading : bool;
  sessionId : jsstring;
  error : option jsstring;
  suggestions : list jsstring;
  isRecording : bool;
  recognition : option SpeechRecognition
}.

(** The argument of a React setter: a value, or an updater applied to the
    latest value of the cell. *)
Inductive SetStateAction (A : Type) : Type :=
| Value (v : A)
| Updater (f : A -> A).

Definition apply_action {A : Type} (act : SetStateAction A) (prev : A) : A :=
  match act with
  | Value v => v
  | Updater f => f prev
  end.

Section Setters.
Variable st : ChatInterfaceState.

Definition with_messages (act : SetStateAction (list Message)) :=
  {| messages := apply_action act (messages st); inputValue := inputValue st;
     isLoading := isLoading st; sessionId := sessionId st; error := error st;
     suggestions := suggestions st; isRecording := isRecording st;
     recognition := recognition st |}.

Definition with_inputValue (v : jsstring) :=
  {| messages := messages st; inputValue := v;
     isLoading := isLoading st; sessionId := sessionId st; error := error st;
     suggestions := suggestions st; isRecording := isRecording st;
     recognition := recognition st |}.

Definition with_isLoading (b : bool) :=
  {| messages := messages st; inputValue := inputValue st;
     isLoading := b; sessionId := sessionId st; error := error st;
     suggestions := suggestions st; isRecording := isRecording st;
     recognition := recognition st |}.

Definition with_sessionId (v : jsstring) :=
  {| messages := messages st; inputValue := inputValue st;
     isLoading := isLoading st; sessionId := v; error := error st;
     suggestions := suggestions st; isRecording := isRecording st;
     recognition := recognition st |}.

Definition with_error (e : option jsstring) :=
  {| messages := messages st; inputValue := inputValue st;
     isLoading := isLoading st; sessionId := sessionId st; error := e;
     suggestions := suggestions st; isRecording := isRecording st;
     recognition := recognition st |}.

Definition with_suggestions (l : list jsstring) :=
  {| messages := messages st; inputValue := inputValue st;
     isLoading := isLoading st; sessionId := sessionId st; error := error st;
     suggestions := l; isRecording := isRecording st;
     recognition := recognition st |}.

Definition with_isRecording (b : bool) :=
  {| messages := messages st; inputValue := inputValue st;
     isLoading := isLoading st; sessionId := sessionId st; error := error st;
     suggestions := suggestions st; isRecording := b;
     recognition := recognition st |}.
End Setters.

(** ** Commands and programs *)

(** What a handler can do: call a setter, or call out of the component.
    [inputRef_focus] is the statement [inputRef.current?.focus()];
    [console_log] and [console_error] carry the label they print.
    The awaited transport calls and [recognition.start()] can throw;
    [recognition.stop()] is called outside any [try] and has no failure
    mode in the Web Speech API, so it returns [unit]. *)
Inductive Cmd : Type -> Type :=
| setMessages (act : SetStateAction (list Message)) : Cmd unit
| setInputValue (v : jsstring) : Cmd unit
| setIsLoading (b : bool) : Cmd unit
| setSessionId (v : jsstring) : Cmd unit
| setError (e : option jsstring) : Cmd unit
| setSuggestions (l : list jsstring) : Cmd unit
| setIsRecording (b : bool) : Cmd unit
| api_sendMessage (request : ChatRequest) : Cmd (Completion ChatResponse)
| api_clearConversation (sid : jsstring) : Cmd (Completion unit)
| Date_toISOString : Cmd jsstring
| uuidv4 : Cmd jsstring
| inputRef_focus : Cmd unit
| console_log (text : jsstring) : Cmd unit
| console_error (text : jsstring) (err : jsstring) : Cmd unit
| recognition_start : Cmd (Completion unit)
| recognition_stop : Cmd unit.

Inductive Prog (A : Type) : Type :=
| Ret (a : A)
| Vis (X : Type) (c : Cmd X) (k : X -> Prog A).
Arguments Vis {A X} c k.

Fixpoint bind {A B : Type} (p : Prog A) (f : A -> Prog B) : Prog B :=
  match p with
  | Ret a => f a
  | Vis c k => Vis c (fun x => bind (k x) f)
  end.

Definition call {X : Type} (c : Cmd X) : Prog X := Vis c (fun x => Ret x).

Declare Scope prog_scope.
Delimit Scope prog_scope with prog.
Notation "x <- c ;; k" := (bind (call c) (fun x => k))
  (at level 61, c at next level, right associativity) : prog_scope.
Notation "c ;; k" := (bind (call c) (fun _ => k))
  (at level 61, right associativity) : prog_scope.
Notation "p >>= f" := (bind p f) (at level 58, left associativity) : prog_scope.
Definition skip : Prog unit := Ret tt.

(** ** Running a program *)

(** The calls that leave the component, as they appear in a trace. *)
Inductive Event : Type :=
| EvSendMessage (request : ChatRequest)
| EvClearConversation (sid : jsstring)
| EvFocus
| EvLog (text : jsstring)
| EvError (text : jsstring) (err : jsstring)
| EvStart
| EvStop.

(** An outgoing call, with the cells as the setters called so far leave
    them. *)
Record Observation : Type := {
  event : Event;
  cells : ChatInterfaceState
}.

(** What the surroundings answer: the backend, the clock, the identifier
    generator and the speech device. *)
Record World : Type := {
  sendMessage_result : ChatRequest -> Completion ChatResponse;
  clearConversation_result : jsstring -> Completion unit;
  clock : jsstring;
  fresh_uuid : jsstring;
  start_result : Completion unit
}.

Definition observe (e : Event) (st : ChatInterfaceState) : list Observation :=
  [ {| event := e; cells := st |} ].

Definition perform {X : Type} (c : Cmd X) (w : World) (st : ChatInterfaceState)
  : X * ChatInterfaceState * list Observation :=
  match c in Cmd X return X * ChatInterfaceState * list Observation with
  | setMessages act => (tt, with_messages st act, [])
  | setInputValue v => (tt, with_inputValue st v, [])
  | setIsLoading b => (tt, with_isLoading st b, [])
  | setSessionId v => (tt, with_sessionId st v, [])
  | setError e => (tt, with_error st e, [])
  | setSuggestions l => (tt, with_suggestions st l, [])
  | setIsRecording b => (tt, with_isRecording st b, [])
  | api_sendMessage request =>
      (sendMessage_result w request, st, observe (EvSendMessage request) st)
  | api_clearConversation sid =>
      (clearConversation_result w sid, st, observe (EvClearConversation sid) st)
  | Date_toISOString => (clock w, st, [])
  | uuidv4 => (fresh_uuid w, st, [])
  | inputRef_focus => (tt, st, observe EvFocus st)
  | console_log text => (tt, st, observe (EvLog text) st)
  | console_error text err => (tt, st, observe (EvError text err) st)
  | recognition_start => (start_result w, st, observe EvStart st)
  | recognition_stop => (tt, st, observe EvStop st)
  end.

Fixpoint run {A : Type} (p : Prog A) (w : World) (st : ChatInterfaceState)
  : A * ChatInterfaceState * list Observation :=
  match p with
  | Ret a => (a, st, [])
  | Vis c k =>
      let '(x, st1, o1) := perform c w st in
      let '(a, st2, o2) := run (k x) w st1 in
      (a, st2, o1 ++ o2)
  end.

(** The cells after the handler has run, and the calls it made. *)
Definition final {A : Type} (r : A * ChatInterfaceState * list Observation)
  : ChatInterfaceState := snd (fst r).
Definition trace {A : Type} (r : A * ChatInterfaceState * list Observation)
  : list Observation := snd r.
Definition events {A : Type} (r : A * ChatInterfaceState * list Observation)
  : list Event := List.map event (snd r).

(** ** ChatInterface.tsx: handlers *)

(** A handler is a closure over the cells of the render that created it:
    it reads [inputValue], [isLoading], [sessionId], [isRecording] and
    [recognition] from [c], while its setters act on the live cells. *)

Open Scope prog_scope.

Definition failed_to_send : jsstring :=
  lit "Failed to send message. Please try again.".
Definition voice_not_supported : jsstring :=
  lit "Voice recognition is not supported in your browser. Please use Chrome, Edge, or Safari.".
Definition failed_to_start : jsstring :=
  lit "Failed to start voice recognition. Please try again.".

Definition handleSendMessage (c : ChatInterfaceState) : Prog unit :=
  (* Guard: Prevent sending empty messages or sending while loading *)
  if negb (truthy (trim (inputValue c))) || isLoading c then skip else
  (* Store and clear the message *)
  let userMessage := trim (inputValue c) in
  setInputValue [] ;;
  setError None ;;
  now <- Date_toISOString ;;
  let userMsg :=
    {| role := user; content := userMessage; timestamp := now;
       msg_agent_type := None |} in
  (* optimistic update *)
  setMessages (Updater (fun prev => prev ++ [userMsg])) ;;
  setIsLoading true ;;
  (* try *)
  r <- api_sendMessage
         {| message := userMessage; session_id := Some (sessionId c);
            voice_input := None |} ;;
  match r with
  | Normal resp =>
      let assistantMsg :=
        {| role := assistant; content := resp.(response);
           timestamp := resp.(resp_timestamp);
           msg_agent_type := Some resp.(agent_info).(agent_type) |} in
      setMessages (Updater (fun prev => prev ++ [assistantMsg])) ;;
      match resp.(resp_suggestions) with
      | Some l => call (setSuggestions l)
      | None => skip
      end >>= fun _ =>
      call (console_log (lit "Response received:"))
  | Throw err =>
      (* catch *)
      console_error (lit "Error sending message:") err ;;
      setError (Some failed_to_send) ;;
      (* rollback *)
      call (setMessages (Updater (fun prev => slice_0_neg1 prev)))
  end >>= fun _ =>
  (* finally *)
  setIsLoading false ;;
  call inputRef_focus.

Definition handleSuggestionClick (suggestion : jsstring) : Prog unit :=
  setInputValue suggestion ;;
  call inputRef_focus.

Definition handleClearChat (c : ChatInterfaceState) : Prog unit :=
  (* Guard: Only proceed if session ID exists *)
  if truthy (sessionId c) then
    r <- api_clearConversation (sessionId c) ;;
    match r with
    | Normal _ =>
        setMessages (Value []) ;;
        setSuggestions [] ;;
        setError None ;;
        newSessionId <- uuidv4 ;;
        setSessionId newSessionId ;;
        call (console_log (lit "Chat cleared, new session:"))
    | Throw err =>
        call (console_error (lit "Error clearing chat:") err)
    end
  else skip.

Definition handleVoiceInput (c : ChatInterfaceState) : Prog unit :=
  match recognition c with
  | None =>
      call (setError (Some voice_not_supported))
  | Some _ =>
      if isRecording c then
        recognition_stop ;;
        call (setIsRecording false)
      else
        setError None ;;
        setIsRecording true ;;
        r <- recognition_start ;;
        match r with
        | Normal _ => skip
        | Throw err =>
            console_error (lit "Error starting recognition:") err ;;
            setIsRecording false ;;
            call (setError (Some failed_to_start))
        end
  end.

Close Scope prog_scope.

(** The object literal [handleSendMessage] passes to [api.sendMessage]. *)
Definition request_of (c : ChatInterfaceState) : ChatRequest :=
  {| message := trim (inputValue c); session_id := Some (sessionId c);
     voice_input := None |}.

(** The send guard lets the call through: the input has text and no send
    is in flight. *)
Definition passes_guard (c : ChatInterfaceState) : Prop :=
  blank (inputValue c) = false /\ isLoading c = false.

(** ** ChatMessage.tsx: the agent badge *)

Module ChatMessage.

Record AgentStyle : Type := {
  icon : jsstring;
  className : jsstring;
  label : jsstring
}.

(** The object literal [agentStyles], own properties in source order.
    The icons are emoji outside the basic plane: a surrogate pair each. *)
Definition agentStyles : list (jsstring * AgentStyle) :=
  [ (lit "sales",
     {| icon := [0xD83D; 0xDED2]%N; className := lit "sales";
        label := lit "Sales" |});
    (lit "marketing",
     {| icon := [0xD83C; 0xDFAF]%N; className := lit "marketing";
        label := lit "Marketing" |});
    (lit "technical_support",
     {| icon := [0xD83D; 0xDD27]%N; className := lit "technicalSupport";
        label := lit "Tech Support" |});
    (lit "order_logistics",
     {| icon := [0xD83D; 0xDCE6]%N; className := lit "orderLogistics";
        label := lit "Orders" |});
    (lit "customer_service",
     {| icon := [0xD83D; 0xDCAC]%N; className := lit "customerService";
        label := lit "Customer Service" |});
    (lit "orchestrator",
     {| icon := [0xD83C; 0xDFAD]%N; className := lit "orchestrator";
        label := lit "System" |}) ].

(** [agentStyles.customer_service] *)
Definition customer_service : AgentStyle :=
  {| icon := [0xD83D; 0xDCAC]%N; className := lit "customerService";
     label := lit "Customer Service" |}.

(** The properties every object literal inherits from [Object.prototype]. *)
Definition Object_prototype : list jsstring :=
  List.map lit
    [ "constructor"; "hasOwnProperty"; "isPrototypeOf";
      "propertyIsEnumerable"; "toLocaleString"; "toString"; "valueOf";
      "__proto__"; "__defineGetter__"; "__defineSetter__";
      "__lookupGetter__"; "__lookupSetter__" ]%string.

(** What reading a property of [agentStyles] can give. *)
Inductive JsValue : Type :=
| VUndefined
| VStyle (s : AgentStyle)
| VInherited (name : jsstring).

(** [ToBoolean]: objects and functions are truthy, [undefined] is not. *)
Definition truthy (v : JsValue) : bool :=
  match v with
  | VUndefined => false
  | VStyle _ | VInherited _ => true
  end.

(** [a || b] *)
Definition or_else (a b : JsValue) : JsValue := if truthy a then a else b.

(** [ToPropertyKey] of the argument: an absent agent type indexes with
    the string "undefined". *)
Definition property_key (agentType : option AgentType) : jsstring :=
  match agentType with
  | Some k => k
  | None => lit "undefined"
  end.

Fixpoint own_property (o : list (jsstring * AgentStyle)) (k : jsstring)
  : option AgentStyle :=
  match o with
  | [] => None
  | (k', s) :: o' => if Js.eqb k k' then Some s else own_property o' k
  end.

(** [o[k]]: an own property first, then the prototype. *)
Definition get (o : list (jsstring * AgentStyle)) (k : jsstring) : JsValue :=
  match own_property o k with
  | Some s => VStyle s
  | None =>
      if existsb (Js.eqb k) Object_prototype then VInherited k
      else VUndefined
  end.

Definition getAgentStyle (agentType : option AgentType) : JsValue :=
  or_else (get agentStyles (property_key agentType)) (VStyle customer_service).

(** The six literals of the union [AgentType]. *)
Definition known_agent_types : list AgentType :=
  List.map lit
    [ "orchestrator"; "sales"; "marketing"; "technical_support";
      "order_logistics"; "customer_service" ]%string.

End ChatMessage.

(** ** Sample data *)

Module Sample.

Definition idle : ChatInterfaceState :=
  {| messages := []; inputValue := lit "  Track my order #12345 ";
     isLoading := false; sessionId := lit "session-1"; error := None;
     suggestions := [lit "Any promotions?"]; isRecording := false;
     recognition :=
       Some {| continuous := false; interimResults := false;
               lang := lit "en-US" |} |}.

Definition reply : ChatResponse :=
  {| response := lit "Your order has shipped.";
     resp_session_id := lit "session-1";
     agent_info :=
       {| agent_type := lit "order_logistics"; confidence := 0.5%float |};
     sentiment := None;
     response_time_ms := 250%float;
     resp_timestamp := lit "2025-01-01T00:00:01.000Z";
     resp_suggestions := None |}.

Definition online : World :=
  {| sendMessage_result := fun _ => Normal reply;
     clearConversation_result := fun _ => Normal tt;
     clock := lit "2025-01-01T00:00:00.000Z";
     fresh_uuid := lit "session-2";
     start_result := Normal tt |}.

Definition offline : World :=
  {| sendMessage_result := fun _ => Throw (lit "Network Error");
     clearConversation_result := fun _ => Throw (lit "Network Error");
     clock := lit "2025-01-01T00:00:00.000Z";
     fresh_uuid := lit "session-2";
     start_result := Throw (lit "InvalidStateError") |}.

(** A conversation in progress, with an earlier exchange on screen. *)
Definition chatting : ChatInterfaceState :=
  with_messages idle
    (Value [ {| role := user; content := lit "Hello"; timestamp := lit "t0";
                msg_agent_type := None |};
             {| role := assistant; content := lit "Hi!"; timestamp := lit "t1";
                msg_agent_type := Some (lit "customer_service") |} ]).

End Sample.

(** ** ChatInterface.tsx: mount effects and device callbacks *)

(** The initial values given to the [useState] calls. *)
Definition initial_cells : ChatInterfaceState :=
  {| messages := []; inputValue := []; isLoading := false; sessionId := [];
     error := None; suggestions := []; isRecording := false;
     recognition := None |}.

Definition voice_error : jsstring :=
  lit "Voice recognition error. Please try again.".

Open Scope prog_scope.

(** The first mount effect: a session identifier for the conversation. *)
Definition sessionEffect : Prog unit :=
  newSessionId <- uuidv4 ;;
  setSessionId newSessionId ;;
  call (console_log (lit "Session initialized:")).

(** What the speech effect finds on the page: no [window] at all when the
    component renders on the server, otherwise a window that may offer
    the standard constructor, the prefixed one, both or neither. *)
Record Window : Type := {
  has_SpeechRecognition : bool;
  has_webkitSpeechRecognition : bool
}.

Definition with_recognition (st : ChatInterfaceState)
           (r : option SpeechRecognition) : ChatInterfaceState :=
  {| messages := messages st; inputValue := inputValue st;
     isLoading := isLoading st; sessionId := sessionId st; error := error st;
     suggestions := suggestions st; isRecording := isRecording st;
     recognition := r |}.

(** The instance the effect configures before it stores it. *)
Definition recognitionInstance : SpeechRecognition :=
  {| continuous := false; interimResults := false; lang := lit "en-US" |}.

(** The third mount effect.  [setRecognition] is its only setter, so it is
    written as a function on the cells. *)
Definition speechEffect (window : option Window) (st : ChatInterfaceState)
  : ChatInterfaceState :=
  match window with
  | None => st
  | Some win =>
      if has_SpeechRecognition win || has_webkitSpeechRecognition win
      then with_recognition st (Some recognitionInstance)
      else st
  end.

(** A recognition event: a list of results, each a list of alternatives. *)
Record SpeechRecognitionAlternative : Type := {
  transcript : jsstring;
  alt_confidence : number
}.

Record SpeechRecognitionEvent : Type := {
  results : list (list SpeechRecognitionAlternative)
}.

(** [event.results[0][0].transcript]: reading through a missing result or
    a missing alternative is a [TypeError]. *)
Definition first_transcript (ev : SpeechRecognitionEvent)
  : Completion jsstring :=
  match results ev with
  | (alt :: _) :: _ => Normal (transcript alt)
  | _ => Throw (lit "TypeError")
  end.

(** [recognitionInstance.onresult] *)
Definition onresult (ev : SpeechRecognitionEvent) : Prog (Completion unit) :=
  match first_transcript ev with
  | Normal t =>
      setInputValue t ;;
      setIsRecording false ;;
      Ret (Normal tt)
  | Throw err => Ret (Throw err)
  end.

(** [recognitionInstance.onerror], given [event.error] *)
Definition onerror (event_error : jsstring) : Prog unit :=
  console_error (lit "Speech recognition error:") event_error ;;
  setError (Some voice_error) ;;
  call (setIsRecording false).

(** [recognitionInstance.onend] *)
Definition onend : Prog unit :=
  call (setIsRecording false).

(** ** ChatInterface.tsx: the input area *)

Record KeyboardEvent : Type := {
  key : jsstring;
  shiftKey : bool
}.

(** The textarea's [onKeyDown]: whether [preventDefault] is called, and
    what runs. *)
Definition onKeyDown (e : KeyboardEvent) (c : ChatInterfaceState)
  : bool * Prog unit :=
  if Js.eqb (key e) (lit "Enter") && negb (shiftKey e)
  then (true, handleSendMessage c)
  else (false, skip).

(** The textarea's [onChange], and the [onClick] of an example button. *)
Definition onChange (value : jsstring) : Prog unit :=
  call (setInputValue value).

Close Scope prog_scope.

(** The example questions of the welcome screen. *)
Definition examples : list jsstring :=
  List.map lit
    [ "What's the price of iPhone 15 Pro?";
      "Do you have any ongoing promotions?";
      "Track my order #12345";
      "My laptop won't turn on" ]%string.

(** ** ChatInterface.tsx: what the render shows *)

Definition showWelcome (c : ChatInterfaceState) : bool :=
  Nat.eqb (List.length (messages c)) 0.

Definition showLoading (c : ChatInterfaceState) : bool := isLoading c.

(** [{error && <Alert>}]: [null] and the empty string render nothing. *)
Definition showError (c : ChatInterfaceState) : bool :=
  match error c with
  | Some e => truthy e
  | None => false
  end.

Definition showSuggestions (c : ChatInterfaceState) : bool :=
  Nat.ltb 0 (List.length (suggestions c)) && negb (isLoading c).

Definition textarea_disabled (c : ChatInterfaceState) : bool :=
  isLoading c || isRecording c.

Definition voiceButton_disabled (c : ChatInterfaceState) : bool :=
  isLoading c.

Definition sendButton_disabled (c : ChatInterfaceState) : bool :=
  negb (truthy (trim (inputValue c))) || isLoading c.

(** ** A session of user and device events *)

(** Everything that can run a handler of the component. *)
Inductive Action : Type :=
| ClickSend
| ClickClear
| ClickVoice
| ClickSuggestion (suggestion : jsstring)
| ChangeInput (value : jsstring)
| PressKey (e : KeyboardEvent)
| DeviceResult (ev : SpeechRecognitionEvent)
| DeviceError (event_error : jsstring)
| DeviceEnd.

(** The handler an action runs, as the closure of the render it was
    created in. *)
Definition handler (a : Action) (c : ChatInterfaceState) : Prog unit :=
  match a with
  | ClickSend => handleSendMessage c
  | ClickClear => handleClearChat c
  | ClickVoice => handleVoiceInput c
  | ClickSuggestion s => handleSuggestionClick s
  | ChangeInput v => onChange v
  | PressKey e => snd (onKeyDown e c)
  | DeviceResult ev => bind (onresult ev) (fun _ => skip)
  | DeviceError err => onerror err
  | DeviceEnd => onend
  end.

(** Handlers run one after the other, each to completion, each against
    the answers the surroundings give at that time; a handler's closure
    holds the cells the previous one left. *)
Fixpoint interact (steps : list (Action * World)) (st : ChatInterfaceState)
  : ChatInterfaceState * list Observation :=
  match steps with
  | [] => (st, [])
  | (a, w) :: rest =>
      let r := run (handler a st) w st in
      let '(st', tr) := interact rest (final r) in
      (st', trace r ++ tr)
  end.

(** The message list is a sequence of exchanges: a user message, then the
    assistant's answer. *)
Fixpoint exchanges (l : list Message) : bool :=
  match l with
  | [] => true
  | u :: rest =>
      match rest with
      | a :: rest' =>
          match role u, role a with
          | user, assistant => exchanges rest'
          | _, _ => false
          end
      | [] => false
      end
  end.

(** ** ChatMessage.tsx: the component *)

Module MessageView.

(** [styles.user] or [styles.assistant], on the container, the wrapper
    and the content box alike. *)
Inductive Side : Type := side_user | side_assistant.

(** What the component lays out: [badge] is the agent badge with the
    time stamp beside it, [timestamp_below] the time stamp under a user
    message, [timeAgo] the text of that time stamp. *)
Record View : Type := {
  side : Side;
  badge : option ChatMessage.JsValue;
  body : jsstring;
  timeAgo : jsstring;
  timestamp_below : bool
}.

Definition isUser (m : Message) : bool :=
  match role m with
  | user => true
  | _ => false
  end.

(** [!isUser ? getAgentStyle(message.agent_type) : null] *)
Definition agentStyle (m : Message) : option ChatMessage.JsValue :=
  if negb (isUser m) then Some (ChatMessage.getAgentStyle (msg_agent_type m))
  else None.

Section Render.

(** [new Date(s)] as the engine parses it: the time value of [s], or
    nothing when [s] gives an Invalid Date. *)
Variable Date_parse : jsstring -> option number.

(** The text date-fns gives for a valid date, with its suffix, at the
    time of the render. *)
Variable distance_text : number -> jsstring.

(** [formatDistanceToNow(new Date(s), { addSuffix: true })]: date-fns
    throws a [RangeError] on an Invalid Date. *)
Definition formatDistanceToNow (s : jsstring) : Completion jsstring :=
  match Date_parse s with
  | Some t => Normal (distance_text t)
  | None => Throw (lit "RangeError: Invalid time value")
  end.

(** The component: the time stamp is formatted before anything is
    returned, so a message whose time stamp does not parse renders
    nothing and throws. *)
Definition render (m : Message) : Completion View :=
  match formatDistanceToNow (timestamp m) with
  | Normal text =>
      Normal
        {| side := if isUser m then side_user else side_assistant;
           badge :=
             match agentStyle m with
             | Some v => if negb (isUser m) && ChatMessage.truthy v
                         then Some v else None
             | None => None
             end;
           body := content m;
           timeAgo := text;
           timestamp_below := isUser m |}
  | Throw err => Throw err
  end.

End Render.

(** How many time stamps the layout of a message holds. *)
Definition timestamps (v : View) : nat :=
  (match badge v with Some _ => 1 | None => 0 end)
  + (if timestamp_below v then 1 else 0).

End MessageView.

(** ** api.ts *)

Module Api.

Record ConversationHistory : Type := {
  history_session_id : jsstring;
  history_messages : list Message;
  total_messages : number
}.

Record FeedbackRequest : Type := {
  feedback_session_id : jsstring;
  rating : number;
  feedback_text : option jsstring;
  helpful : bool
}.

Record HealthCheck : Type := {
  status : jsstring;
  version : jsstring;
  health_timestamp : jsstring;
  database_status : jsstring;
  vector_db_status : jsstring
}.

Record AgentPerformance : Type := {
  perf_agent_type : AgentType;
  total_queries : number;
  success_rate : number;
  avg_response_time_ms : number;
  avg_confidence : number;
  total_tokens_used : number
}.

Record SystemAnalytics : Type := {
  total_conversations : number;
  analytics_total_messages : number;
  avg_sentiment_score : number;
  agent_performance : list AgentPerformance;
  analytics_timestamp : jsstring
}.

(** [process.env.NEXT_PUBLIC_API_URL || 'http://localhost:8000/api/v1'] *)
Definition API_URL (env : option jsstring) : jsstring :=
  match env with
  | Some u => if truthy u then u else lit "http://localhost:8000/api/v1"
  | None => lit "http://localhost:8000/api/v1"
  end.

Record AxiosResponse (X : Type) : Type := { data : X }.

(** The verbs of the axios instance [apiClient], at the types the client
    uses them: each takes the path and, for [post], the body, and either
    answers or throws. *)
Record AxiosInstance : Type := {
  post_ChatResponse :
    jsstring -> ChatRequest -> Completion (AxiosResponse ChatResponse);
  get_ConversationHistory :
    jsstring -> Completion (AxiosResponse ConversationHistory);
  delete : jsstring -> Completion (AxiosResponse unit);
  post_any : jsstring -> FeedbackRequest -> Completion (AxiosResponse unit);
  get_SystemAnalytics :
    jsstring -> Completion (AxiosResponse SystemAnalytics);
  get_HealthCheck : jsstring -> Completion (AxiosResponse HealthCheck)
}.

(** [await p; return response.data]: a rejection passes through. *)
Definition returning_data {X : Type} (r : Completion (AxiosResponse X))
  : Completion X :=
  match r with
  | Normal resp => Normal (data resp)
  | Throw err => Throw err
  end.

(** [await p]: the answer is dropped, a rejection passes through. *)
Definition returning_void {X : Type} (r : Completion X) : Completion unit :=
  match r with
  | Normal _ => Normal tt
  | Throw err => Throw err
  end.

(** [`/conversation/${sessionId}`] *)
Definition conversation_path (sessionId : jsstring) : jsstring :=
  lit "/conversation/" ++ sessionId.

Section APIClient.
Variable apiClient : AxiosInstance.

Definition sendMessage (request : ChatRequest) : Completion ChatResponse :=
  returning_data (post_ChatResponse apiClient (lit "/chat") request).

Definition getConversation (sessionId : jsstring)
  : Completion ConversationHistory :=
  returning_data
    (get_ConversationHistory apiClient (conversation_path sessionId)).

Definition clearConversation (sessionId : jsstring) : Completion unit :=
  returning_void (delete apiClient (conversation_path sessionId)).

Definition submitFeedback (request : FeedbackRequest) : Completion unit :=
  returning_void (post_any apiClient (lit "/feedback") request).

Definition getAnalytics : Completion SystemAnalytics :=
  returning_data (get_SystemAnalytics apiClient (lit "/analytics")).

Definition healthCheck : Completion HealthCheck :=
  returning_data (get_HealthCheck apiClient (lit "/health")).

(** The surroundings of the component when its transport calls go
    through this client. *)
Definition world (clock_ fresh_uuid_ : jsstring)
           (start_result_ : Completion unit) : World :=
  {| sendMessage_result := sendMessage;
     clearConversation_result := clearConversation;
     clock := clock_;
     fresh_uuid := fresh_uuid_;
     start_result := start_result_ |}.

End APIClient.

End Api.

(** ** Reading a trace *)

(** The requests handed to [api.sendMessage], in order. *)
Definition sends (l : list Event) : list ChatRequest :=
  flat_map (fun e => match e with EvSendMessage r => [r] | _ => [] end) l.

(** The session identifiers handed to [api.clearConversation], in order. *)
Definition clears (l : list Event) : list jsstring :=
  flat_map (fun e => match e with EvClearConversation s => [s] | _ => [] end) l.

(** The calls on the speech device, in order. *)
Definition device_calls (l : list Event) : list Event :=
  filter (fun e => match e with EvStart | EvStop => true | _ => false end) l.

(** ** What is on the screen when a call is made *)

(** React commits the cells to the screen when a synchronous block of a
    handler ends: where the handler suspends on an awaited call and where
    it returns.  The setters of one block are batched, so a call made
    inside a block meets the screen of the last commit, not the cells the
    setters before it have prepared. *)
Definition suspends {X : Type} (c : Cmd X) : bool :=
  match c with
  | api_sendMessage _ | api_clearConversation _ => true
  | _ => false
  end.

(** An outgoing call, with the cells on the screen when it is made. *)
Record Shown : Type := {
  made : Event;
  screen : ChatInterfaceState
}.

(** The calls of a program, each with the screen it meets; [st] are the
    cells as the setters leave them, [scr] the cells of the last commit. *)
Fixpoint run_on_screen {A : Type} (p : Prog A) (w : World)
         (st scr : ChatInterfaceState) : list Shown :=
  match p with
  | Ret _ => []
  | Vis c k =>
      let '(x, st1, o1) := perform c w st in
      List.map (fun o => {| made := event o; screen := scr |}) o1
      ++ run_on_screen (k x) w st1 (if suspends c then st1 else scr)
  end.

(** Whether the page offers a speech constructor: the condition under
    which [speechEffect] stores an instance. *)
Definition offers_speech (window : option Window) : bool :=
  match window with
  | Some win => has_SpeechRecognition win || has_webkitSpeechRecognition win
  | None => false
  end.

(** ** More sample data *)

Module Demo.

Definition heard : SpeechRecognitionEvent :=
  {| results :=
       [ [ {| transcript := lit " where is my order ";
              alt_confidence := 0.5%float |} ] ] |}.

(** A browser that only has the prefixed constructor. *)
Definition safari : Window :=
  {| has_SpeechRecognition := false; has_webkitSpeechRecognition := true |}.

(** A browser without speech recognition. *)
Definition firefox : Window :=
  {| has_SpeechRecognition := false; has_webkitSpeechRecognition := false |}.

(** The cells after the session effect, with some text typed. *)
Definition mounted : ChatInterfaceState :=
  with_inputValue (with_sessionId initial_cells (lit "session-1"))
                  (lit "hello").

(** A date parser for the examples: it takes the 24 characters of an
    ISO time stamp and nothing else. *)
Definition parse (s : jsstring) : option number :=
  if Nat.eqb (List.length s) 24 then Some 0%float else None.

Definition ago (t : number) : jsstring := lit "less than a minute ago".

(** A backend that refuses everything. *)
Definition down : Api.AxiosInstance :=
  {| Api.post_ChatResponse := fun _ _ => Throw (lit "timeout of 30000ms exceeded");
     Api.get_ConversationHistory := fun _ => Throw (lit "timeout of 30000ms exceeded");
     Api.delete := fun _ => Throw (lit "timeout of 30000ms exceeded");
     Api.post_any := fun _ _ => Throw (lit "timeout of 30000ms exceeded");
     Api.get_SystemAnalytics := fun _ => Throw (lit "timeout of 30000ms exceeded");
     Api.get_HealthCheck := fun _ => Throw (lit "timeout of 30000ms exceeded") |}.

(** A backend that answers the chat and the delete. *)
Definition up : Api.AxiosInstance :=
  {| Api.post_ChatResponse := fun _ _ => Normal {| Api.data := Sample.reply |};
     Api.get_ConversationHistory := fun _ => Throw (lit "Not Found");
     Api.delete := fun _ => Normal {| Api.data := tt |};
     Api.post_any := fun _ _ => Normal {| Api.data := tt |};
     Api.get_SystemAnalytics := fun _ => Throw (lit "Not Found");
     Api.get_HealthCheck := fun _ => Throw (lit "Not Found") |}.

(** A short session: type, send, pick up the microphone, dictate, send. *)
Definition session : list (Action * World) :=
  [ (ChangeInput (lit "hello"), Sample.online);
    (ClickSend, Sample.online);
    (ClickVoice, Sample.online);
    (DeviceResult heard, Sample.online);
    (DeviceEnd, Sample.online);
    (PressKey {| key := lit "Enter"; shiftKey := false |}, Sample.offline) ].

End Demo.

(** * Properties *)

(** ** Strings *)

Section StringFacts.

Lemma eqb_refl (s : jsstring) : Js.eqb s s = true.
Proof.
  induction s as [|c s IH]; simpl; [reflexivity|].
  now rewrite N.eqb_refl, IH.
Qed.

Lemma eqb_eq (s t : jsstring) : Js.eqb s t = true <-> s = t.
Proof.
  split.
  - revert t; induction s as [|c s IH]; intros [|d t]; simpl;
      try discriminate; [reflexivity|].
    intros H. apply andb_true_iff in H as [Hc Hs].
    apply N.eqb_eq in Hc. f_equal; auto.
  - intros <-. apply eqb_refl.
Qed.

Lemma trimEnd_keeps_text (c : N) (s : jsstring) :
  is_whitespace c = false -> truthy (trimEnd (c :: s)) = true.
Proof.
  intros Hc. simpl. destruct (trimEnd s); [rewrite Hc|]; reflexivity.
Qed.

(** [trim] gives the empty string exactly on blank text. *)
Lemma truthy_trim (s : jsstring) : truthy (trim s) = negb (blank s).
Proof.
  unfold trim, blank. induction s as [|c s IH]; [reflexivity|].
  simpl trimStart. simpl forallb.
  destruct (is_whitespace c) eqn:Hc.
  - exact IH.
  - now rewrite trimEnd_keeps_text.
Qed.

Lemma blank_has_text (s : jsstring) :
  blank s = false <-> Exists (fun c => is_whitespace c = false) s.
Proof.
  unfold blank. induction s as [|c s IH]; simpl.
  - split; [discriminate | intros H; inversion H].
  - rewrite andb_false_iff, Exists_cons. tauto.
Qed.

Lemma trimStart_suffix (s : jsstring) :
  exists l, s = l ++ trimStart s /\ blank l = true.
Proof.
  induction s as [|c s [l [Hs Hl]]].
  - now exists [].
  - simpl. destruct (is_whitespace c) eqn:Hc.
    + exists (c :: l). simpl. unfold blank in *. simpl.
      rewrite Hc, Hl. split; [now f_equal | reflexivity].
    + now exists [].
Qed.

Lemma trimEnd_prefix (s : jsstring) :
  exists r, s = trimEnd s ++ r /\ blank r = true.
Proof.
  induction s as [|c s [r [Hs Hr]]].
  - now exists [].
  - simpl. destruct (trimEnd s) as [|d t] eqn:Ht.
    + simpl in Hs. subst r. destruct (is_whitespace c) eqn:Hc.
      * exists (c :: s). unfold blank in *. simpl. now rewrite Hc, Hr.
      * exists s. now split.
    + exists r. split; [|exact Hr]. simpl. now f_equal.
Qed.

(** [trim] removes a blank prefix and a blank suffix, nothing else. *)
Lemma trim_decompose (s : jsstring) :
  exists l r, s = l ++ trim s ++ r /\ blank l = true /\ blank r = true.
Proof.
  destruct (trimStart_suffix s) as [l [Hs Hl]].
  destruct (trimEnd_prefix (trimStart s)) as [r [Ht Hr]].
  exists l, r. unfold trim. now rewrite <- Ht.
Qed.

Lemma trimStart_head (s t : jsstring) (c : N) :
  trimStart s = c :: t -> is_whitespace c = false.
Proof.
  induction s as [|d s IH]; simpl; [discriminate |].
  destruct (is_whitespace d) eqn:Hd; [exact IH |].
  intros H. injection H as <- _. exact Hd.
Qed.

Lemma trimEnd_head (s : jsstring) (c : N) :
  is_whitespace c = false -> exists t, trimEnd (c :: s) = c :: t.
Proof.
  intros Hc. simpl. destruct (trimEnd s) as [|d t].
  - rewrite Hc. now exists [].
  - now exists (d :: t).
Qed.

Lemma trimEnd_last (s t : jsstring) (c : N) :
  trimEnd s = t ++ [c] -> is_whitespace c = false.
Proof.
  revert t. induction s as [|d s IH]; intros t; simpl.
  - now destruct t.
  - destruct (trimEnd s) as [|e u].
    + destruct (is_whitespace d) eqn:Hd; [now destruct t |].
      destruct t as [|x [|y t]]; simpl; intros H; try discriminate.
      now injection H as <-.
    + destruct t as [|x t]; simpl; intros H.
      * discriminate.
      * injection H as _ H. exact (IH t H).
Qed.

(** What [trim] returns neither starts nor ends with white space. *)
Lemma trim_tight (s t : jsstring) (c : N) :
  (trim s = c :: t -> is_whitespace c = false) /\
  (trim s = t ++ [c] -> is_whitespace c = false).
Proof.
  unfold trim. split; [| apply trimEnd_last].
  destruct (trimStart s) as [|d u] eqn:Hs; [discriminate |].
  pose proof (@trimStart_head s u d Hs) as Hd.
  destruct (@trimEnd_head u d Hd) as [v Hv]. rewrite Hv.
  intros H. now injection H as <- _.
Qed.

Lemma slice_0_neg1_snoc (A : Type) (l : list A) (x : A) :
  slice_0_neg1 (l ++ [x]) = l.
Proof.
  unfold slice_0_neg1. rewrite length_app. simpl.
  replace (List.length l + 1 - 1) with (List.length l + 0) by lia.
  rewrite firstn_app_2. simpl. apply app_nil_r.
Qed.

End StringFacts.

(** ** Running programs *)

Lemma run_bind (A B : Type) (p : Prog A) (f : A -> Prog B)
      (w : World) (st : ChatInterfaceState) :
  run (bind p f) w st =
    let '(a, st1, o1) := run p w st in
    let '(b, st2, o2) := run (f a) w st1 in
    (b, st2, o1 ++ o2).
Proof.
  revert st. induction p as [a | X c k IH]; intros st; simpl.
  - now destruct (run (f a) w st) as [[b st2] o2].
  - destruct (perform c w st) as [[x st1] o1]. rewrite IH.
    destruct (run (k x) w st1) as [[a st2] o2].
    destruct (run (f a) w st2) as [[b st3] o3].
    now rewrite app_assoc.
Qed.

(** The screen model adds the screen to each call and nothing else: the
    calls are those of [run], in the same order. *)
Lemma run_on_screen_calls (A : Type) (p : Prog A) (w : World)
      (st scr : ChatInterfaceState) :
  List.map made (run_on_screen p w st scr) = events (run p w st).
Proof.
  revert st scr. induction p as [a | X c k IH]; intros st scr; cbn.
  - reflexivity.
  - destruct (perform c w st) as [[x st1] o1].
    rewrite map_app, map_map, IH. cbn [made].
    destruct (run (k x) w st1) as [[a st2] o2].
    unfold events. cbn [snd]. now rewrite map_app.
Qed.

(** ** Sending a message *)

Section Send.
Variable w : World.
Variable st : ChatInterfaceState.

Let userMsg : Message :=
  {| role := user; content := trim (inputValue st); timestamp := clock w;
     msg_agent_type := None |}.

(** The cells at the moment the transport client is called. *)
Let in_flight : ChatInterfaceState :=
  with_isLoading
    (with_messages (with_error (with_inputValue st []) None)
       (Updater (fun prev => prev ++ [userMsg])))
    true.

Lemma guard_open :
  passes_guard st ->
  negb (truthy (trim (inputValue st))) || isLoading st = false.
Proof.
  intros [Hb Hl]. now rewrite truthy_trim, Hb, Hl.
Qed.

Lemma guard_closed :
  blank (inputValue st) = true \/ isLoading st = true ->
  negb (truthy (trim (inputValue st))) || isLoading st = true.
Proof.
  rewrite truthy_trim. intros [-> | ->]; [reflexivity | apply orb_true_r].
Qed.

Lemma send_rejected :
  blank (inputValue st) = true \/ isLoading st = true ->
  run (handleSendMessage st) w st = (tt, st, []).
Proof.
  intros H. unfold handleSendMessage. now rewrite (guard_closed H).
Qed.

Lemma send_succeeds (resp : ChatResponse) :
  passes_guard st ->
  sendMessage_result w (request_of st) = Normal resp ->
  let assistantMsg :=
    {| role := assistant; content := response resp;
       timestamp := resp_timestamp resp;
       msg_agent_type := Some (agent_type (agent_info resp)) |} in
  let answered :=
    with_messages in_flight (Updater (fun prev => prev ++ [assistantMsg])) in
  let advised :=
    match resp_suggestions resp with
    | Some l => with_suggestions answered l
    | None => answered
    end in
  run (handleSendMessage st) w st =
    (tt, with_isLoading advised false,
     [ {| event := EvSendMessage (request_of st); cells := in_flight |};
       {| event := EvLog (lit "Response received:"); cells := advised |};
       {| event := EvFocus; cells := with_isLoading advised false |} ]).
Proof.
  intros Hg Hr. unfold handleSendMessage. rewrite (guard_open Hg).
  unfold request_of in Hr. cbn -[trim lit]. rewrite Hr.
  destruct (resp_suggestions resp); reflexivity.
Qed.

Lemma send_fails (err : jsstring) :
  passes_guard st ->
  sendMessage_result w (request_of st) = Throw err ->
  let flagged := with_error in_flight (Some failed_to_send) in
  let rolled_back :=
    with_messages flagged (Updater (fun prev => slice_0_neg1 prev)) in
  run (handleSendMessage st) w st =
    (tt, with_isLoading rolled_back false,
     [ {| event := EvSendMessage (request_of st); cells := in_flight |};
       {| event := EvError (lit "Error sending message:") err;
          cells := in_flight |};
       {| event := EvFocus; cells := with_isLoading rolled_back false |} ]).
Proof.
  intros Hg Hr. unfold handleSendMessage. rewrite (guard_open Hg).
  unfold request_of in Hr. cbn -[trim lit slice_0_neg1]. rewrite Hr.
  reflexivity.
Qed.

End Send.

(** C1. With no send in flight and an input that has at least one
    character that is not white space, a [handleSendMessage] whose
    transport call succeeds leaves the message list equal to the old one
    followed by exactly two entries: the user message carrying the
    trimmed input, then the assistant message carrying the server's
    response text. *)
Theorem C1_send_appends_user_then_assistant
        (w : World) (st : ChatInterfaceState) (resp : ChatResponse) :
  isLoading st = false ->
  Exists (fun ch => is_whitespace ch = false) (inputValue st) ->
  sendMessage_result w (request_of st) = Normal resp ->
  messages (final (run (handleSendMessage st) w st)) =
    messages st ++
      [ {| role := user; content := trim (inputValue st);
           timestamp := clock w; msg_agent_type := None |};
        {| role := assistant; content := response resp;
           timestamp := resp_timestamp resp;
           msg_agent_type := Some (agent_type (agent_info resp)) |} ].
Proof.
  intros Hl Ht Hr. apply blank_has_text in Ht.
  rewrite (@send_succeeds w st resp (conj Ht Hl) Hr).
  unfold final. cbn -[trim].
  destruct (resp_suggestions resp); cbn -[trim]; now rewrite <- app_assoc.
Qed.

Lemma C1_witness :
  isLoading Sample.idle = false /\
  Exists (fun ch => is_whitespace ch = false) (inputValue Sample.idle) /\
  List.map content
    (messages
       (final (run (handleSendMessage Sample.idle) Sample.online Sample.idle)))
  = [ lit "Track my order #12345"; lit "Your order has shipped." ].
Proof.
  assert (Ht : Exists (fun ch => is_whitespace ch = false)
                      (inputValue Sample.idle))
    by (apply blank_has_text; reflexivity).
  split; [reflexivity | split; [exact Ht |]].
  rewrite (@C1_send_appends_user_then_assistant
             Sample.online Sample.idle Sample.reply eq_refl Ht eq_refl).
  reflexivity.
Defined.

(** C2. A [handleSendMessage] on blank input (empty or white space only),
    or while a send is in flight, does nothing: every cell keeps its value
    and no call leaves the component. *)
Theorem C2_send_rejected_is_noop (w : World) (st : ChatInterfaceState) :
  blank (inputValue st) = true \/ isLoading st = true ->
  final (run (handleSendMessage st) w st) = st /\
  trace (run (handleSendMessage st) w st) = [].
Proof.
  intros H. now rewrite (@send_rejected w st H).
Qed.

Lemma C2_witness :
  (blank (inputValue (with_isLoading Sample.idle true)) = true \/
   isLoading (with_isLoading Sample.idle true) = true) /\
  final (run (handleSendMessage (with_isLoading Sample.idle true))
             Sample.online (with_isLoading Sample.idle true))
  = with_isLoading Sample.idle true /\
  trace (run (handleSendMessage (with_isLoading Sample.idle true))
             Sample.online (with_isLoading Sample.idle true)) = [].
Proof.
  split; [right; reflexivity |].
  apply (@C2_send_rejected_is_noop Sample.online
           (with_isLoading Sample.idle true)).
  right; reflexivity.
Defined.

(** C3. With no send in flight and non-blank input, a [handleSendMessage]
    whose transport call fails leaves the message list exactly as it was
    before the send, and sets the error to the failure message. *)
Theorem C3_send_failure_rolls_back
        (w : World) (st : ChatInterfaceState) (err : jsstring) :
  isLoading st = false ->
  blank (inputValue st) = false ->
  sendMessage_result w (request_of st) = Throw err ->
  messages (final (run (handleSendMessage st) w st)) = messages st /\
  error (final (run (handleSendMessage st) w st)) = Some failed_to_send /\
  error (final (run (handleSendMessage st) w st)) <> None.
Proof.
  intros Hl Ht Hr.
  rewrite (@send_fails w st err (conj Ht Hl) Hr).
  unfold final. cbn -[trim slice_0_neg1 failed_to_send].
  rewrite slice_0_neg1_snoc. repeat split. discriminate.
Qed.

Lemma C3_witness :
  isLoading Sample.chatting = false /\
  blank (inputValue Sample.chatting) = false /\
  messages
    (final (run (handleSendMessage Sample.chatting)
                Sample.offline Sample.chatting))
  = messages Sample.chatting.
Proof.
  split; [reflexivity | split; [reflexivity |]].
  apply (@C3_send_failure_rolls_back Sample.offline Sample.chatting
           (lit "Network Error") eq_refl eq_refl eq_refl).
Defined.

(** Every [handleSendMessage] that passes the guard ends, whatever the
    transport call answers, with [isLoading] false and with the focus call
    on the input as the last call it issues. *)
Lemma send_ends_with_focus_call (w : World) (st : ChatInterfaceState) :
  blank (inputValue st) = false ->
  isLoading st = false ->
  isLoading (final (run (handleSendMessage st) w st)) = false /\
  exists earlier,
    trace (run (handleSendMessage st) w st) =
      earlier ++
        [ {| event := EvFocus;
             cells := final (run (handleSendMessage st) w st) |} ].
Proof.
  intros Ht Hl.
  destruct (sendMessage_result w (request_of st)) as [resp | err] eqn:Hr.
  - rewrite (@send_succeeds w st resp (conj Ht Hl) Hr).
    split; [reflexivity |].
    eexists [_; _]. reflexivity.
  - rewrite (@send_fails w st err (conj Ht Hl) Hr).
    split; [reflexivity |].
    eexists [_; _]. reflexivity.
Qed.

(** What is on the screen at each call of a [handleSendMessage] that
    passes the guard: the transport call meets the screen of before the
    click; the handler then suspends and the prepared cells are
    committed, so every later call, the focus call included, meets a
    screen on which the request is still in flight. *)
Lemma send_on_screen (w : World) (st : ChatInterfaceState) :
  blank (inputValue st) = false ->
  isLoading st = false ->
  let in_flight :=
    with_isLoading
      (with_messages (with_error (with_inputValue st []) None)
         (Updater (fun prev =>
            prev ++ [ {| role := user; content := trim (inputValue st);
                         timestamp := clock w; msg_agent_type := None |} ])))
      true in
  run_on_screen (handleSendMessage st) w st st =
    [ {| made := EvSendMessage (request_of st); screen := st |};
      {| made :=
           match sendMessage_result w (request_of st) with
           | Normal _ => EvLog (lit "Response received:")
           | Throw err => EvError (lit "Error sending message:") err
           end;
         screen := in_flight |};
      {| made := EvFocus; screen := in_flight |} ].
Proof.
  intros Hb Hl. unfold handleSendMessage.
  rewrite (@guard_open st (conj Hb Hl)).
  cbn -[trim lit slice_0_neg1]. unfold request_of.
  destruct (sendMessage_result w _) as [resp | err];
    [destruct (resp_suggestions resp) |]; reflexivity.
Qed.

(** C5. The focus call does not restore the focus.  On an idle state
    with text in the input and a backend that answers, the send ends with
    the loading flag off, but its three calls meet these screens: the
    transport call the idle one, and the log and the focus call the one
    committed when the handler suspended, on which the textarea, disabled
    by [isLoading || isRecording], is still disabled.  [focus()] on a
    disabled control does nothing. *)
Theorem C5_focus_call_meets_disabled_textarea :
  blank (inputValue Sample.idle) = false /\
  isLoading Sample.idle = false /\
  isLoading
    (final (run (handleSendMessage Sample.idle) Sample.online Sample.idle))
    = false /\
  List.map (fun s => (made s, textarea_disabled (screen s)))
    (run_on_screen (handleSendMessage Sample.idle) Sample.online
                   Sample.idle Sample.idle) =
    [ (EvSendMessage (request_of Sample.idle), false);
      (EvLog (lit "Response received:"), true);
      (EvFocus, true) ].
Proof.
  split; [reflexivity | split; [reflexivity | split; [reflexivity |]]].
  rewrite (@send_on_screen Sample.online Sample.idle eq_refl eq_refl).
  reflexivity.
Qed.

(** C9. After a successful send the suggestions are the ones the response
    provides when it provides any, and the previous ones otherwise. *)
Theorem C9_suggestions_kept_unless_provided
        (w : World) (st : ChatInterfaceState) (resp : ChatResponse) :
  blank (inputValue st) = false ->
  isLoading st = false ->
  sendMessage_result w (request_of st) = Normal resp ->
  suggestions (final (run (handleSendMessage st) w st)) =
    match resp_suggestions resp with
    | Some provided => provided
    | None => suggestions st
    end.
Proof.
  intros Ht Hl Hr.
  rewrite (@send_succeeds w st resp (conj Ht Hl) Hr).
  destruct (resp_suggestions resp); reflexivity.
Qed.

Lemma C9_witness :
  blank (inputValue Sample.idle) = false /\
  isLoading Sample.idle = false /\
  resp_suggestions Sample.reply = None /\
  suggestions
    (final (run (handleSendMessage Sample.idle) Sample.online Sample.idle))
  = suggestions Sample.idle.
Proof.
  split; [reflexivity | split; [reflexivity | split; [reflexivity |]]].
  apply (@C9_suggestions_kept_unless_provided Sample.online Sample.idle
           Sample.reply eq_refl eq_refl eq_refl).
Defined.

(** C10. A [handleSendMessage] that passes the guard makes its transport
    call, the first call it makes, with the input field already empty and
    the error already cleared; when that call fails the input field is
    still empty at the end. *)
Theorem C10_input_cleared_before_call
        (w : World) (st : ChatInterfaceState) :
  blank (inputValue st) = false ->
  isLoading st = false ->
  (exists (at_call : ChatInterfaceState) (later : list Observation),
      trace (run (handleSendMessage st) w st) =
        {| event := EvSendMessage (request_of st); cells := at_call |}
          :: later /\
      inputValue at_call = [] /\
      error at_call = None) /\
  (forall err,
      sendMessage_result w (request_of st) = Throw err ->
      inputValue (final (run (handleSendMessage st) w st)) = []).
Proof.
  intros Ht Hl. split.
  - destruct (sendMessage_result w (request_of st)) as [resp | err] eqn:Hr.
    + rewrite (@send_succeeds w st resp (conj Ht Hl) Hr).
      do 2 eexists. split; [reflexivity | split; reflexivity].
    + rewrite (@send_fails w st err (conj Ht Hl) Hr).
      do 2 eexists. split; [reflexivity | split; reflexivity].
  - intros err Hr.
    now rewrite (@send_fails w st err (conj Ht Hl) Hr).
Qed.

Lemma C10_witness :
  blank (inputValue Sample.idle) = false /\
  isLoading Sample.idle = false /\
  inputValue
    (final (run (handleSendMessage Sample.idle) Sample.offline Sample.idle))
  = [].
Proof.
  split; [reflexivity | split; [reflexivity |]].
  apply (proj2 (@C10_input_cleared_before_call Sample.offline Sample.idle
                  eq_refl eq_refl) (lit "Network Error")).
  reflexivity.
Defined.

(** ** Picking a suggestion *)

(** C6. [handleSuggestionClick] puts exactly the suggestion's text in the
    input field; the messages, the suggestions, the loading flag, the
    error and the session identifier keep their values, and the only call
    it makes is the focus call: nothing is sent. *)
Theorem C6_suggestion_fills_input_only
        (w : World) (st : ChatInterfaceState) (suggestion : jsstring) :
  let r := run (handleSuggestionClick suggestion) w st in
  inputValue (final r) = suggestion /\
  messages (final r) = messages st /\
  suggestions (final r) = suggestions st /\
  isLoading (final r) = isLoading st /\
  error (final r) = error st /\
  sessionId (final r) = sessionId st /\
  isRecording (final r) = isRecording st /\
  recognition (final r) = recognition st /\
  events r = [EvFocus].
Proof.
  cbn. repeat split.
Qed.

(** ** Clearing the conversation *)

Section Clear.
Variable w : World.
Variable st : ChatInterfaceState.
Hypothesis has_session : truthy (sessionId st) = true.

Let fresh : ChatInterfaceState :=
  with_sessionId
    (with_error (with_suggestions (with_messages st (Value [])) []) None)
    (fresh_uuid w).

Lemma clear_succeeds :
  clearConversation_result w (sessionId st) = Normal tt ->
  run (handleClearChat st) w st =
    (tt, fresh,
     [ {| event := EvClearConversation (sessionId st); cells := st |};
       {| event := EvLog (lit "Chat cleared, new session:");
          cells := fresh |} ]).
Proof.
  intros Hr. unfold handleClearChat. rewrite has_session.
  cbn -[lit]. rewrite Hr. reflexivity.
Qed.

Lemma clear_fails (err : jsstring) :
  clearConversation_result w (sessionId st) = Throw err ->
  run (handleClearChat st) w st =
    (tt, st,
     [ {| event := EvClearConversation (sessionId st); cells := st |};
       {| event := EvError (lit "Error clearing chat:") err;
          cells := st |} ]).
Proof.
  intros Hr. unfold handleClearChat. rewrite has_session.
  cbn -[lit]. rewrite Hr. reflexivity.
Qed.

End Clear.

(** C4. A clear whose transport call fails resets nothing.  With two
    messages and a suggestion on the screen, a session identifier and a
    backend that rejects the call, [handleClearChat] makes the call, logs
    the failure, and leaves every cell as it was: the messages, the
    suggestions and the session identifier are the old ones. *)
Theorem C4_failed_clear_resets_nothing :
  truthy (sessionId Sample.chatting) = true /\
  clearConversation_result Sample.offline (sessionId Sample.chatting)
    = Throw (lit "Network Error") /\
  run (handleClearChat Sample.chatting) Sample.offline Sample.chatting =
    (tt, Sample.chatting,
     [ {| event := EvClearConversation (sessionId Sample.chatting);
          cells := Sample.chatting |};
       {| event := EvError (lit "Error clearing chat:") (lit "Network Error");
          cells := Sample.chatting |} ]) /\
  messages
    (final (run (handleClearChat Sample.chatting)
                Sample.offline Sample.chatting)) <> [] /\
  suggestions
    (final (run (handleClearChat Sample.chatting)
                Sample.offline Sample.chatting)) <> [] /\
  sessionId
    (final (run (handleClearChat Sample.chatting)
                Sample.offline Sample.chatting))
    = sessionId Sample.chatting.
Proof.
  split; [reflexivity | split; [reflexivity | split]].
  - exact (@clear_fails Sample.offline Sample.chatting eq_refl
             (lit "Network Error") eq_refl).
  - repeat split; cbn; discriminate.
Qed.

(** ** Voice capture *)

(** C7, as stated, fails: with a speech device present and recording off,
    a start that throws leaves the recording flag off, not toggled. *)
Lemma C7_counterexample :
  recognition Sample.idle <> None /\
  isRecording Sample.idle = false /\
  isRecording
    (final (run (handleVoiceInput Sample.idle) Sample.offline Sample.idle))
    <> negb (isRecording Sample.idle).
Proof.
  repeat split; cbn; discriminate.
Qed.

(** C7, amended.  Without a speech device, [handleVoiceInput] sets the
    error to the not-supported message, makes no call and leaves the
    recording flag alone.  With a device and recording on, it stops the
    capture and turns the flag off.  With a device and recording off, it
    clears the error and starts the capture: the flag ends on when the
    start succeeds, and off, with the failed-to-start error, when the
    start throws. *)
Theorem C7_voice_toggle (w : World) (st : ChatInterfaceState) :
  let r := run (handleVoiceInput st) w st in
  (recognition st = None ->
   final r = with_error st (Some voice_not_supported) /\
   isRecording (final r) = isRecording st /\
   events r = []) /\
  (recognition st <> None -> isRecording st = true ->
   final r = with_isRecording st false /\
   events r = [EvStop]) /\
  (recognition st <> None -> isRecording st = false ->
   start_result w = Normal tt ->
   final r = with_isRecording (with_error st None) true /\
   events r = [EvStart]) /\
  (recognition st <> None -> isRecording st = false ->
   forall err, start_result w = Throw err ->
   isRecording (final r) = false /\
   error (final r) = Some failed_to_start /\
   events r = [EvStart; EvError (lit "Error starting recognition:") err]).
Proof.
  intros r. subst r. unfold handleVoiceInput.
  destruct (recognition st) as [device |] eqn:Hdev.
  - split; [intros Hnone; discriminate Hnone |].
    destruct (isRecording st) eqn:Hrec.
    + split; [intros _ _; split; reflexivity |].
      split; [intros _ Hoff | intros _ Hoff]; discriminate Hoff.
    + split; [intros _ Hon; discriminate Hon |].
      split.
      * intros _ _ Hr. cbn. rewrite Hr. split; reflexivity.
      * intros _ _ err Hr. cbn -[lit failed_to_start]. rewrite Hr.
        repeat split.
  - split; [intros _; cbn -[voice_not_supported]; repeat split |].
    split; [| split]; intros Hsome; now contradiction Hsome.
Qed.

Lemma C7_witness :
  recognition Sample.idle <> None /\
  isRecording Sample.idle = false /\
  start_result Sample.online = Normal tt /\
  isRecording
    (final (run (handleVoiceInput Sample.idle) Sample.online Sample.idle))
    = true.
Proof.
  assert (Hdev : recognition Sample.idle <> None) by discriminate.
  split; [exact Hdev | split; [reflexivity | split; [reflexivity |]]].
  destruct (@C7_voice_toggle Sample.online Sample.idle)
    as [_ [_ [Hstart _]]].
  destruct (Hstart Hdev eq_refl eq_refl) as [Hfinal _].
  rewrite Hfinal. reflexivity.
Defined.

(** ** The agent badge *)

Section AgentStyle.
Import ChatMessage.

Lemma own_property_absent (o : list (jsstring * AgentStyle)) (k : jsstring) :
  ~ In k (List.map fst o) -> own_property o k = None.
Proof.
  induction o as [| [k' s] o IH]; simpl; [reflexivity |].
  intros Hk. destruct (Js.eqb k k') eqn:E.
  - apply eqb_eq in E. subst k'. exfalso. apply Hk. now left.
  - apply IH. intros Hin. apply Hk. now right.
Qed.

Lemma not_inherited (k : jsstring) :
  ~ In k Object_prototype -> existsb (Js.eqb k) Object_prototype = false.
Proof.
  intros Hk. apply not_true_is_false. intros H.
  apply existsb_exists in H as [k' [Hin E]].
  apply eqb_eq in E. subst k'. exact (Hk Hin).
Qed.

(** The own properties of [agentStyles] are the six literals of
    [AgentType], once each. *)
Lemma agentStyles_keys (k : jsstring) :
  In k (List.map fst agentStyles) <-> In k known_agent_types.
Proof.
  unfold agentStyles, known_agent_types. cbn -[lit]. tauto.
Qed.

Lemma agentStyles_NoDup : NoDup (List.map fst agentStyles).
Proof.
  cbn. repeat constructor; cbn; intuition discriminate.
Qed.

Lemma agentStyles_own (k : jsstring) (s : AgentStyle) :
  In (k, s) agentStyles -> own_property agentStyles k = Some s.
Proof.
  unfold agentStyles. cbn -[lit own_property].
  intros H; repeat destruct H as [H | H]; try contradiction;
    injection H as <- <-; reflexivity.
Qed.

End AgentStyle.

(** C8. An unrecognized agent type can miss the default.  The string
    "constructor" is none of the six agent types, yet reading it off
    [agentStyles] finds the member every object inherits; that member is
    truthy, so [||] does not fall back and what comes back is not the
    customer-service styling. *)
Theorem C8_inherited_key_misses_default :
  ~ In (lit "constructor") ChatMessage.known_agent_types /\
  ChatMessage.getAgentStyle (Some (lit "constructor"))
    = ChatMessage.VInherited (lit "constructor") /\
  ChatMessage.getAgentStyle (Some (lit "constructor"))
    <> ChatMessage.VStyle ChatMessage.customer_service.
Proof.
  split; [cbn; intuition discriminate |].
  split; [reflexivity | cbn; discriminate].
Qed.

(** Where [getAgentStyle] does what is meant: each of the six agent
    types gets its own entry, and an absent agent type, like every string
    that is neither one of the six nor the name of an inherited property,
    gets the customer-service styling. *)
Lemma getAgentStyle_lookup :
  (forall k, In k ChatMessage.known_agent_types ->
             exists s, In (k, s) ChatMessage.agentStyles) /\
  (forall k s, In (k, s) ChatMessage.agentStyles ->
               ChatMessage.getAgentStyle (Some k) = ChatMessage.VStyle s) /\
  ChatMessage.getAgentStyle None
    = ChatMessage.VStyle ChatMessage.customer_service /\
  (forall k, ~ In k ChatMessage.known_agent_types ->
             ~ In k ChatMessage.Object_prototype ->
             ChatMessage.getAgentStyle (Some k)
               = ChatMessage.VStyle ChatMessage.customer_service).
Proof.
  split; [| split; [| split]].
  - intros k Hk. apply agentStyles_keys in Hk.
    apply in_map_iff in Hk as [[k' s] [Hfst Hin]].
    simpl in Hfst. subst k'. now exists s.
  - intros k s Hin. unfold ChatMessage.getAgentStyle, ChatMessage.get.
    cbn [ChatMessage.property_key].
    now rewrite (agentStyles_own Hin).
  - reflexivity.
  - intros k Hk Hp. unfold ChatMessage.getAgentStyle, ChatMessage.get.
    cbn [ChatMessage.property_key].
    rewrite own_property_absent
      by (intros Hin; apply Hk; now apply agentStyles_keys).
    now rewrite (not_inherited Hp).
Qed.

(** * Further properties of the handlers *)

(** The three ways a [handleSendMessage] can go: turned away by the
    guard, answered, or failed. *)
Ltac send_cases w st :=
  let Hb := fresh "Hblank" in
  let Hl := fresh "Hloading" in
  let Hr := fresh "Hresult" in
  let resp := fresh "resp" in
  let err := fresh "err" in
  destruct (blank (inputValue st)) eqn:Hb;
  [ rewrite (@send_rejected w st (or_introl Hb))
  | destruct (isLoading st) eqn:Hl;
    [ rewrite (@send_rejected w st (or_intror Hl))
    | destruct (sendMessage_result w (request_of st)) as [resp | err] eqn:Hr;
      [ rewrite (@send_succeeds w st resp (conj Hb Hl) Hr)
      | rewrite (@send_fails w st err (conj Hb Hl) Hr) ] ] ].

(** X1. [handleSendMessage] never removes, reorders or rewrites a message
    that is already in the list: whatever the input, the loading flag and
    the answer of the transport, the old list is a prefix of the new one,
    and what follows it is either nothing or one user message and one
    assistant message. *)
Theorem send_keeps_history (w : World) (st : ChatInterfaceState) :
  exists added,
    messages (final (run (handleSendMessage st) w st)) = messages st ++ added /\
    (added = [] \/
     exists u a, added = [u; a] /\ role u = user /\ role a = assistant).
Proof.
  send_cases w st.
  - exists []. split; [symmetry; apply app_nil_r | now left].
  - exists []. split; [symmetry; apply app_nil_r | now left].
  - eexists [_; _]. split.
    + unfold final. cbn -[trim].
      destruct (resp_suggestions resp); cbn -[trim];
        rewrite <- app_assoc; reflexivity.
    + right. do 2 eexists. repeat split.
  - exists []. split; [| now left].
    unfold final. cbn -[trim slice_0_neg1].
    now rewrite slice_0_neg1_snoc, app_nil_r.
Qed.

(** X2. The send button and the handler agree: [handleSendMessage] calls
    the transport client exactly once when the button is enabled and not
    at all when it is disabled, and the one request carries the trimmed
    input and the session identifier of the closure, and no voice flag. *)
Theorem send_calls_transport_iff_enabled (w : World) (st : ChatInterfaceState) :
  sends (events (run (handleSendMessage st) w st)) =
    if sendButton_disabled st then []
    else [ {| message := trim (inputValue st);
              session_id := Some (sessionId st);
              voice_input := None |} ].
Proof.
  unfold sendButton_disabled. rewrite truthy_trim.
  send_cases w st; reflexivity.
Qed.

(** X3. A request that [handleSendMessage] sends never has an empty
    message, nor one that starts or ends with white space. *)
Theorem sent_message_is_trimmed_text
        (w : World) (st : ChatInterfaceState) (req : ChatRequest) :
  In req (sends (events (run (handleSendMessage st) w st))) ->
  message req <> [] /\
  (forall c t, message req = c :: t -> is_whitespace c = false) /\
  (forall c t, message req = t ++ [c] -> is_whitespace c = false).
Proof.
  assert (Htight : passes_guard st ->
                   In req [request_of st] ->
                   message req <> [] /\
                   (forall c t, message req = c :: t -> is_whitespace c = false) /\
                   (forall c t, message req = t ++ [c] -> is_whitespace c = false)).
  { intros [Hb _] [<- | []]. cbn [message request_of]. split; [| split].
    - intros He. pose proof (truthy_trim (inputValue st)) as Ht.
      rewrite He, Hb in Ht. discriminate Ht.
    - intros c t. apply trim_tight.
    - intros c t. apply trim_tight. }
  send_cases w st; cbn -[trim]; try contradiction.
  - apply Htight. now split.
  - apply Htight. now split.
Qed.

Lemma sent_message_is_trimmed_text_witness :
  In (request_of Sample.idle)
     (sends (events (run (handleSendMessage Sample.idle)
                         Sample.online Sample.idle))) /\
  message (request_of Sample.idle) <> [].
Proof.
  assert (Hin : In (request_of Sample.idle)
                   (sends (events (run (handleSendMessage Sample.idle)
                                       Sample.online Sample.idle))))
    by (left; reflexivity).
  split; [exact Hin |].
  exact (proj1 (@sent_message_is_trimmed_text
                  Sample.online Sample.idle (request_of Sample.idle) Hin)).
Defined.

(** X4. [handleSendMessage] leaves the session identifier, the recording
    flag and the speech device alone, never asks the backend to clear a
    conversation and never calls the speech device. *)
Theorem send_frame (w : World) (st : ChatInterfaceState) :
  let r := run (handleSendMessage st) w st in
  sessionId (final r) = sessionId st /\
  isRecording (final r) = isRecording st /\
  recognition (final r) = recognition st /\
  clears (events r) = [] /\
  device_calls (events r) = [].
Proof.
  cbv zeta. send_cases w st; try (repeat split; reflexivity).
  destruct (resp_suggestions resp); repeat split; reflexivity.
Qed.

(** X5. A failed send undoes everything but the typing: afterwards every
    cell has the value it had before, except that the input field is empty
    and the error holds the failure message.  In particular the text the
    user typed is gone and the suggestions are the old ones. *)
Theorem failed_send_only_clears_input
        (w : World) (st : ChatInterfaceState) (err : jsstring) :
  blank (inputValue st) = false ->
  isLoading st = false ->
  sendMessage_result w (request_of st) = Throw err ->
  final (run (handleSendMessage st) w st) =
    with_error (with_inputValue st []) (Some failed_to_send).
Proof.
  intros Hb Hl Hr. rewrite (@send_fails w st err (conj Hb Hl) Hr).
  unfold final, with_error, with_inputValue, with_messages, with_isLoading.
  cbn -[trim slice_0_neg1 failed_to_send].
  now rewrite slice_0_neg1_snoc, Hl.
Qed.

Lemma failed_send_only_clears_input_witness :
  blank (inputValue Sample.chatting) = false /\
  isLoading Sample.chatting = false /\
  final (run (handleSendMessage Sample.chatting)
             Sample.offline Sample.chatting) =
    with_error (with_inputValue Sample.chatting []) (Some failed_to_send).
Proof.
  split; [reflexivity | split; [reflexivity |]].
  exact (@failed_send_only_clears_input Sample.offline Sample.chatting
           (lit "Network Error") eq_refl eq_refl eq_refl).
Defined.

(** X6. Once a send that passed the guard has completed, with or without
    an answer, sending again without typing does nothing: the input field
    was emptied, so the guard turns the second call away whatever the
    backend would answer. *)
Theorem send_twice_sends_once
        (w w' : World) (st : ChatInterfaceState) :
  blank (inputValue st) = false ->
  isLoading st = false ->
  let st1 := final (run (handleSendMessage st) w st) in
  run (handleSendMessage st1) w' st1 = (tt, st1, []).
Proof.
  intros Hb Hl st1. apply send_rejected. left. subst st1.
  destruct (sendMessage_result w (request_of st)) as [resp | err] eqn:Hr.
  - rewrite (@send_succeeds w st resp (conj Hb Hl) Hr).
    destruct (resp_suggestions resp); reflexivity.
  - now rewrite (@send_fails w st err (conj Hb Hl) Hr).
Qed.

Lemma send_twice_sends_once_witness :
  blank (inputValue Sample.idle) = false /\
  isLoading Sample.idle = false /\
  events
    (run (handleSendMessage
            (final (run (handleSendMessage Sample.idle)
                        Sample.online Sample.idle)))
         Sample.online
         (final (run (handleSendMessage Sample.idle)
                     Sample.online Sample.idle))) = [].
Proof.
  split; [reflexivity | split; [reflexivity |]].
  now rewrite (@send_twice_sends_once Sample.online Sample.online Sample.idle
                 eq_refl eq_refl).
Defined.

(** X7. While a request is awaited the component is locked.  A send that
    passes the guard makes its transport call on the screen of before the
    click; the screen committed when it suspends, which every later call
    of the handler meets, has the optimistic user message as the last of
    the list, shows the loading indicator, hides the suggestion chips, and
    has the textarea, the voice button and the send button disabled. *)
Theorem locked_while_in_flight
        (w : World) (st : ChatInterfaceState) (shown : Shown) :
  blank (inputValue st) = false ->
  isLoading st = false ->
  In shown (run_on_screen (handleSendMessage st) w st st) ->
  match made shown with
  | EvSendMessage _ => screen shown = st
  | _ =>
      messages (screen shown) =
        messages st ++
          [ {| role := user; content := trim (inputValue st);
               timestamp := clock w; msg_agent_type := None |} ] /\
      showLoading (screen shown) = true /\
      showSuggestions (screen shown) = false /\
      textarea_disabled (screen shown) = true /\
      voiceButton_disabled (screen shown) = true /\
      sendButton_disabled (screen shown) = true
  end.
Proof.
  intros Hb Hl. rewrite (@send_on_screen w st Hb Hl).
  unfold showLoading, showSuggestions, textarea_disabled,
    voiceButton_disabled, sendButton_disabled.
  intros [<- | [<- | [<- | []]]]; cbn -[trim lit].
  - reflexivity.
  - destruct (sendMessage_result w (request_of st));
      repeat split; apply andb_false_r.
  - repeat split. apply andb_false_r.
Qed.

Lemma locked_while_in_flight_witness :
  let shown :=
    last (run_on_screen (handleSendMessage Sample.idle) Sample.online
                        Sample.idle Sample.idle)
         {| made := EvFocus; screen := Sample.idle |} in
  blank (inputValue Sample.idle) = false /\
  isLoading Sample.idle = false /\
  In shown (run_on_screen (handleSendMessage Sample.idle) Sample.online
                          Sample.idle Sample.idle) /\
  made shown = EvFocus /\
  sendButton_disabled (screen shown) = true.
Proof.
  intros shown.
  assert (Hin : In shown (run_on_screen (handleSendMessage Sample.idle)
                            Sample.online Sample.idle Sample.idle))
    by (right; right; left; reflexivity).
  split; [reflexivity | split; [reflexivity | split; [exact Hin |]]].
  split; [reflexivity |].
  exact (proj2 (proj2 (proj2 (proj2 (proj2
           (@locked_while_in_flight Sample.online Sample.idle shown
              eq_refl eq_refl Hin)))))).
Defined.

(** The three ways a [handleClearChat] can go: no session identifier,
    cleared, or failed. *)
Ltac clear_cases w st :=
  let Hs := fresh "Hsession" in
  let Hr := fresh "Hresult" in
  let err := fresh "err" in
  destruct (truthy (sessionId st)) eqn:Hs;
  [ destruct (clearConversation_result w (sessionId st)) as [[] | err] eqn:Hr;
    [ rewrite (@clear_succeeds w st Hs Hr)
    | rewrite (@clear_fails w st Hs err Hr) ]
  | unfold handleClearChat; rewrite Hs ].

(** X8. With an empty session identifier, as before the session effect
    has run, [handleClearChat] does nothing at all: the backend is not
    called and the local messages and suggestions stay on the screen. *)
Theorem clear_without_session_is_noop (w : World) (st : ChatInterfaceState) :
  sessionId st = [] ->
  run (handleClearChat st) w st = (tt, st, []).
Proof.
  intros Hs. unfold handleClearChat. now rewrite Hs.
Qed.

Lemma clear_without_session_is_noop_witness :
  sessionId (with_sessionId Sample.chatting []) = [] /\
  messages
    (final (run (handleClearChat (with_sessionId Sample.chatting []))
                Sample.online (with_sessionId Sample.chatting [])))
  = messages Sample.chatting.
Proof.
  split; [reflexivity |].
  now rewrite (@clear_without_session_is_noop Sample.online
                 (with_sessionId Sample.chatting []) eq_refl).
Defined.

(** X9. [handleClearChat] never touches the input field, the loading
    flag, the recording flag or the speech device, never sends a message
    and never calls the speech device; it asks the backend to clear the
    closure's session once when that session identifier is non-empty and
    not at all otherwise. *)
Theorem clear_frame (w : World) (st : ChatInterfaceState) :
  let r := run (handleClearChat st) w st in
  inputValue (final r) = inputValue st /\
  isLoading (final r) = isLoading st /\
  isRecording (final r) = isRecording st /\
  recognition (final r) = recognition st /\
  sends (events r) = [] /\
  device_calls (events r) = [] /\
  clears (events r) = if truthy (sessionId st) then [sessionId st] else [].
Proof.
  cbv zeta. clear_cases w st; repeat split; reflexivity.
Qed.

(** X10. After a successful clear the next send belongs to the new
    conversation: its request carries the freshly generated session
    identifier, and when it is answered the list holds exactly the new
    user message and the new assistant message. *)
Theorem send_after_clear_uses_new_session
        (w w' : World) (st : ChatInterfaceState) (resp : ChatResponse) :
  truthy (sessionId st) = true ->
  clearConversation_result w (sessionId st) = Normal tt ->
  blank (inputValue st) = false ->
  isLoading st = false ->
  let st1 := final (run (handleClearChat st) w st) in
  let r := run (handleSendMessage st1) w' st1 in
  sends (events r) =
    [ {| message := trim (inputValue st);
         session_id := Some (fresh_uuid w);
         voice_input := None |} ] /\
  (sendMessage_result w' (request_of st1) = Normal resp ->
   messages (final r) =
     [ {| role := user; content := trim (inputValue st);
          timestamp := clock w'; msg_agent_type := None |};
       {| role := assistant; content := response resp;
          timestamp := resp_timestamp resp;
          msg_agent_type := Some (agent_type (agent_info resp)) |} ]).
Proof.
  intros Hs Hc Hb Hl st1 r. subst r.
  assert (Hst1 : inputValue st1 = inputValue st /\
                 isLoading st1 = isLoading st /\
                 sessionId st1 = fresh_uuid w /\
                 messages st1 = []).
  { subst st1. rewrite (@clear_succeeds w st Hs Hc). repeat split. }
  destruct Hst1 as [Hi [Hl1 [Hid Hm]]].
  assert (Hg : passes_guard st1).
  { split; [now rewrite Hi | now rewrite Hl1]. }
  clearbody st1. split.
  - destruct (sendMessage_result w' (request_of st1)) as [resp' | err] eqn:Hr.
    + rewrite (@send_succeeds w' st1 resp' Hg Hr). cbn -[trim].
      unfold request_of. now rewrite Hi, Hid.
    + rewrite (@send_fails w' st1 err Hg Hr). cbn -[trim].
      unfold request_of. now rewrite Hi, Hid.
  - intros Hr. rewrite (@send_succeeds w' st1 resp Hg Hr).
    unfold final. cbn -[trim].
    destruct (resp_suggestions resp); cbn -[trim]; now rewrite Hm, Hi.
Qed.

Lemma send_after_clear_uses_new_session_witness :
  truthy (sessionId Sample.chatting) = true /\
  blank (inputValue Sample.chatting) = false /\
  isLoading Sample.chatting = false /\
  List.map session_id
    (sends (events
       (run (handleSendMessage
               (final (run (handleClearChat Sample.chatting)
                           Sample.online Sample.chatting)))
            Sample.online
            (final (run (handleClearChat Sample.chatting)
                        Sample.online Sample.chatting)))))
  = [Some (lit "session-2")].
Proof.
  split; [reflexivity | split; [reflexivity | split; [reflexivity |]]].
  now rewrite (proj1 (@send_after_clear_uses_new_session
                        Sample.online Sample.online Sample.chatting
                        Sample.reply eq_refl eq_refl eq_refl eq_refl)).
Defined.

(** X11. After a successful clear the screen is back to its opening
    state: the welcome section shows, and neither the suggestion chips nor
    the error alert do. *)
Theorem clear_shows_welcome (w : World) (st : ChatInterfaceState) :
  truthy (sessionId st) = true ->
  clearConversation_result w (sessionId st) = Normal tt ->
  let st1 := final (run (handleClearChat st) w st) in
  showWelcome st1 = true /\
  showSuggestions st1 = false /\
  showError st1 = false.
Proof.
  intros Hs Hc st1. subst st1. rewrite (@clear_succeeds w st Hs Hc).
  repeat split.
Qed.

Lemma clear_shows_welcome_witness :
  truthy (sessionId Sample.chatting) = true /\
  showWelcome Sample.chatting = false /\
  showWelcome
    (final (run (handleClearChat Sample.chatting)
                Sample.online Sample.chatting)) = true.
Proof.
  split; [reflexivity | split; [reflexivity |]].
  exact (proj1 (@clear_shows_welcome Sample.online Sample.chatting
                  eq_refl eq_refl)).
Defined.

(** ** More on voice capture *)

(** X12. [handleVoiceInput] never touches the messages, the input field,
    the suggestions, the session identifier, the loading flag or the
    stored speech device, and never calls the transport client. *)
Theorem voice_frame (w : World) (st : ChatInterfaceState) :
  let r := run (handleVoiceInput st) w st in
  messages (final r) = messages st /\
  inputValue (final r) = inputValue st /\
  suggestions (final r) = suggestions st /\
  sessionId (final r) = sessionId st /\
  isLoading (final r) = isLoading st /\
  recognition (final r) = recognition st /\
  sends (events r) = [] /\
  clears (events r) = [].
Proof.
  cbv zeta. unfold handleVoiceInput.
  destruct (recognition st) as [device |] eqn:Hdev;
    [destruct (isRecording st) eqn:Hrec;
     [| cbn -[lit failed_to_start];
        destruct (start_result w) as [[] | err]] |];
    cbn -[lit failed_to_start voice_not_supported];
    rewrite ?Hdev; repeat split; reflexivity.
Qed.

(** X13. Two clicks on the microphone, the first of which starts the
    capture, make one start and one stop and leave the recording flag
    off, with the error cleared and every other cell as it was. *)
Theorem voice_toggle_twice (w w' : World) (st : ChatInterfaceState) :
  recognition st <> None ->
  isRecording st = false ->
  start_result w = Normal tt ->
  let r1 := run (handleVoiceInput st) w st in
  let r2 := run (handleVoiceInput (final r1)) w' (final r1) in
  events r1 ++ events r2 = [EvStart; EvStop] /\
  final r2 = with_error st None.
Proof.
  intros Hdev Hrec Hstart r1 r2. subst r2 r1. unfold handleVoiceInput.
  destruct (recognition st) as [device |] eqn:Hd; [| now contradiction Hdev].
  rewrite Hrec. cbn. rewrite Hstart. cbn. rewrite Hd. cbn.
  split; [reflexivity |].
  unfold with_error. cbn. now rewrite Hd, Hrec.
Qed.

Lemma voice_toggle_twice_witness :
  recognition Sample.idle <> None /\
  isRecording Sample.idle = false /\
  start_result Sample.online = Normal tt /\
  isRecording
    (final (run (handleVoiceInput
                   (final (run (handleVoiceInput Sample.idle)
                               Sample.online Sample.idle)))
                Sample.offline
                (final (run (handleVoiceInput Sample.idle)
                            Sample.online Sample.idle)))) = false.
Proof.
  assert (Hdev : recognition Sample.idle <> None) by discriminate.
  split; [exact Hdev | split; [reflexivity | split; [reflexivity |]]].
  now rewrite (proj2 (@voice_toggle_twice Sample.online Sample.offline
                        Sample.idle Hdev eq_refl eq_refl)).
Defined.

(** X14. A start that throws does not leave the toggle armed: the
    recording flag is off again, so the next click on the microphone tries
    to start the capture anew instead of stopping one that never began. *)
Theorem voice_retry_after_failed_start
        (w w' : World) (st : ChatInterfaceState) (err : jsstring) :
  recognition st <> None ->
  isRecording st = false ->
  start_result w = Throw err ->
  let r1 := run (handleVoiceInput st) w st in
  let r2 := run (handleVoiceInput (final r1)) w' (final r1) in
  device_calls (events r1) = [EvStart] /\
  device_calls (events r2) = [EvStart].
Proof.
  intros Hdev Hrec Hstart r1 r2. subst r2 r1. unfold handleVoiceInput.
  destruct (recognition st) as [device |] eqn:Hd; [| now contradiction Hdev].
  rewrite Hrec. cbn -[lit failed_to_start]. rewrite Hstart.
  cbn -[lit failed_to_start]. rewrite Hd. cbn -[lit failed_to_start].
  split; [reflexivity |].
  destruct (start_result w') as [[] | err']; reflexivity.
Qed.

Lemma voice_retry_after_failed_start_witness :
  recognition Sample.idle <> None /\
  isRecording Sample.idle = false /\
  device_calls
    (events (run (handleVoiceInput
                    (final (run (handleVoiceInput Sample.idle)
                                Sample.offline Sample.idle)))
                 Sample.online
                 (final (run (handleVoiceInput Sample.idle)
                             Sample.offline Sample.idle)))) = [EvStart].
Proof.
  assert (Hdev : recognition Sample.idle <> None) by discriminate.
  split; [exact Hdev | split; [reflexivity |]].
  exact (proj2 (@voice_retry_after_failed_start Sample.offline Sample.online
                  Sample.idle (lit "InvalidStateError") Hdev
                  eq_refl eq_refl)).
Defined.

(** ** The speech effect and the device callbacks *)

(** X15. Whether the microphone works is decided at mount.  Starting from
    cells without a speech device and not recording, after [speechEffect]
    a click on the microphone calls the device, once and with [start],
    exactly when the page offers the standard or the prefixed constructor;
    otherwise, which includes rendering without a [window], it calls
    nothing and shows the not-supported message. *)
Theorem microphone_follows_browser_support
        (window : option Window) (w : World) (st : ChatInterfaceState) :
  recognition st = None ->
  isRecording st = false ->
  let st1 := speechEffect window st in
  let r := run (handleVoiceInput st1) w st1 in
  device_calls (events r) = (if offers_speech window then [EvStart] else []) /\
  (offers_speech window = false ->
   final r = with_error st (Some voice_not_supported) /\ events r = []).
Proof.
  intros Hdev Hrec st1 r. subst r st1.
  unfold speechEffect, offers_speech, handleVoiceInput.
  destruct window as [win |];
    [destruct (has_SpeechRecognition win || has_webkitSpeechRecognition win) |].
  - cbn -[lit failed_to_start]. rewrite Hrec. cbn -[lit failed_to_start].
    destruct (start_result w) as [[] | err];
      (split; [reflexivity | discriminate]).
  - rewrite Hdev. split; [reflexivity |]. intros _. split; reflexivity.
  - rewrite Hdev. split; [reflexivity |]. intros _. split; reflexivity.
Qed.

Lemma microphone_follows_browser_support_witness :
  recognition Demo.mounted = None /\
  isRecording Demo.mounted = false /\
  device_calls
    (events (run (handleVoiceInput (speechEffect (Some Demo.safari) Demo.mounted))
                 Sample.online (speechEffect (Some Demo.safari) Demo.mounted)))
    = [EvStart] /\
  events
    (run (handleVoiceInput (speechEffect (Some Demo.firefox) Demo.mounted))
         Sample.online (speechEffect (Some Demo.firefox) Demo.mounted))
    = [].
Proof.
  split; [reflexivity | split; [reflexivity | split]].
  - exact (proj1 (@microphone_follows_browser_support (Some Demo.safari)
                    Sample.online Demo.mounted eq_refl eq_refl)).
  - exact (proj2 (proj2 (@microphone_follows_browser_support
                           (Some Demo.firefox) Sample.online Demo.mounted
                           eq_refl eq_refl) eq_refl)).
Defined.

(** X16. No device callback sends anything or calls the device back:
    [onresult], [onerror] and [onend] make no transport call and no device
    call, and leave the messages, the suggestions, the session identifier
    and the loading flag as they were.  A recognised utterance only fills
    the input field. *)
Theorem device_callbacks_never_send
        (w : World) (st : ChatInterfaceState) (a : Action) :
  (exists ev, a = DeviceResult ev) \/ (exists err, a = DeviceError err) \/
  a = DeviceEnd ->
  let r := run (handler a st) w st in
  sends (events r) = [] /\
  clears (events r) = [] /\
  device_calls (events r) = [] /\
  messages (final r) = messages st /\
  suggestions (final r) = suggestions st /\
  sessionId (final r) = sessionId st /\
  isLoading (final r) = isLoading st.
Proof.
  intros [[ev ->] | [[err ->] | ->]]; cbn [handler].
  - unfold onresult. destruct (first_transcript ev); repeat split.
  - repeat split.
  - repeat split.
Qed.

Lemma device_callbacks_never_send_witness :
  ((exists ev, DeviceResult Demo.heard = DeviceResult ev) \/
   (exists err, DeviceResult Demo.heard = DeviceError err) \/
   DeviceResult Demo.heard = DeviceEnd) /\
  sends
    (events (run (handler (DeviceResult Demo.heard) Sample.idle)
                 Sample.online Sample.idle)) = [].
Proof.
  assert (H : (exists ev, DeviceResult Demo.heard = DeviceResult ev) \/
              (exists err, DeviceResult Demo.heard = DeviceError err) \/
              DeviceResult Demo.heard = DeviceEnd)
    by (left; exists Demo.heard; reflexivity).
  split; [exact H |].
  exact (proj1 (@device_callbacks_never_send Sample.online Sample.idle
                  (DeviceResult Demo.heard) H)).
Defined.

(** Every device callback that gets through ends the recording:
    after [onerror], after [onend], and after an [onresult] whose event
    holds a first alternative, the recording flag is off.  An [onresult]
    whose event holds no alternative throws before any setter and changes
    nothing. *)
Theorem device_callbacks_stop_recording
        (w : World) (st : ChatInterfaceState) :
  (forall err, isRecording (final (run (onerror err) w st)) = false) /\
  isRecording (final (run onend w st)) = false /\
  (forall ev t,
      first_transcript ev = Normal t ->
      run (onresult ev) w st =
        (Normal tt, with_isRecording (with_inputValue st t) false, [])) /\
  (forall ev err,
      first_transcript ev = Throw err ->
      run (onresult ev) w st = (Throw err, st, [])).
Proof.
  split; [reflexivity | split; [reflexivity | split]];
    intros ev x Hev; unfold onresult; rewrite Hev; reflexivity.
Qed.

Lemma device_callbacks_stop_recording_witness :
  first_transcript Demo.heard = Normal (lit " where is my order ") /\
  isRecording
    (final (run (onresult Demo.heard) Sample.online
                (with_isRecording Sample.idle true))) = false.
Proof.
  split; [reflexivity |].
  now rewrite (proj1 (proj2 (proj2
        (@device_callbacks_stop_recording Sample.online
           (with_isRecording Sample.idle true))))
        Demo.heard (lit " where is my order ") eq_refl).
Defined.

(** X17. Dictating and then sending sends the trimmed transcript under
    the current session, like typed text: the request has no voice flag
    even though the text came from the speech device. *)
Theorem dictated_text_is_sent_like_typed_text
        (w w' : World) (st : ChatInterfaceState)
        (ev : SpeechRecognitionEvent) (t : jsstring) :
  first_transcript ev = Normal t ->
  blank t = false ->
  isLoading st = false ->
  let st1 := final (run (onresult ev) w st) in
  sends (events (run (handleSendMessage st1) w' st1)) =
    [ {| message := trim t; session_id := Some (sessionId st);
         voice_input := None |} ].
Proof.
  intros Hev Hb Hl st1.
  assert (Hst1 : inputValue st1 = t /\ isLoading st1 = isLoading st /\
                 sessionId st1 = sessionId st).
  { subst st1. unfold onresult. rewrite Hev. repeat split. }
  destruct Hst1 as [Hi [Hl1 Hid]].
  assert (Hg : passes_guard st1).
  { split; [now rewrite Hi | now rewrite Hl1]. }
  clearbody st1.
  destruct (sendMessage_result w' (request_of st1)) as [resp | err] eqn:Hr.
  - rewrite (@send_succeeds w' st1 resp Hg Hr). cbn -[trim].
    unfold request_of. now rewrite Hi, Hid.
  - rewrite (@send_fails w' st1 err Hg Hr). cbn -[trim].
    unfold request_of. now rewrite Hi, Hid.
Qed.

Lemma dictated_text_is_sent_like_typed_text_witness :
  first_transcript Demo.heard = Normal (lit " where is my order ") /\
  blank (lit " where is my order ") = false /\
  isLoading Demo.mounted = false /\
  List.map message
    (sends (events
       (run (handleSendMessage
               (final (run (onresult Demo.heard) Sample.online Demo.mounted)))
            Sample.online
            (final (run (onresult Demo.heard) Sample.online Demo.mounted)))))
  = [lit "where is my order"].
Proof.
  split; [reflexivity | split; [reflexivity | split; [reflexivity |]]].
  now rewrite (@dictated_text_is_sent_like_typed_text
                 Sample.online Sample.online Demo.mounted Demo.heard
                 (lit " where is my order ") eq_refl eq_refl eq_refl).
Defined.

(** X18. The end-of-capture event that follows a result or an error
    changes nothing more: after [onresult] (with a transcript) or
    [onerror], running [onend] leaves every cell as it is, so the
    transcript and the error message survive it. *)
Theorem onend_after_result_or_error_is_noop
        (w w' : World) (st : ChatInterfaceState) :
  (forall ev t,
      first_transcript ev = Normal t ->
      let st1 := final (run (onresult ev) w st) in
      run onend w' st1 = (tt, st1, [])) /\
  (forall err,
      let st1 := final (run (onerror err) w st) in
      run onend w' st1 = (tt, st1, [])).
Proof.
  split.
  - intros ev t Hev st1. subst st1. unfold onresult. rewrite Hev.
    reflexivity.
  - intros err st1. reflexivity.
Qed.

Lemma onend_after_result_or_error_is_noop_witness :
  first_transcript Demo.heard = Normal (lit " where is my order ") /\
  inputValue
    (final (run onend Sample.online
                (final (run (onresult Demo.heard) Sample.online
                            Sample.idle))))
  = lit " where is my order ".
Proof.
  split; [reflexivity |].
  now rewrite (proj1 (@onend_after_result_or_error_is_noop
                        Sample.online Sample.online Sample.idle)
                 Demo.heard (lit " where is my order ") eq_refl).
Defined.

(** ** Sessions *)

(** The ways a [handleVoiceInput] can go. *)
Ltac voice_cases w st :=
  let err := fresh "err" in
  unfold handleVoiceInput;
  destruct (recognition st) eqn:?;
  [ destruct (isRecording st) eqn:?;
    [ | cbn -[lit failed_to_start];
        destruct (start_result w) as [[] | err] eqn:? ]
  | ];
  cbn -[lit failed_to_start voice_not_supported].

(** Every way every handler can go. *)
Ltac handler_cases a w st :=
  let s := fresh "s" in
  let v := fresh "v" in
  let e := fresh "e" in
  let ev := fresh "ev" in
  let err := fresh "err" in
  destruct a as [ | | | s | v | e | ev | err | ]; cbn [handler];
  [ send_cases w st
  | clear_cases w st
  | voice_cases w st
  | cbn
  | cbn
  | unfold onKeyDown;
    destruct (Js.eqb (key e) (lit "Enter") && negb (shiftKey e));
    cbn [snd]; [send_cases w st | cbn]
  | unfold onresult; destruct (first_transcript ev); cbn
  | cbn -[lit voice_error]
  | cbn ].

Lemma interact_sound
      (allowed : Action -> Prop) (P : ChatInterfaceState -> Prop)
      (Q : Observation -> Prop) :
  (forall a w st,
      allowed a -> P st ->
      P (final (run (handler a st) w st)) /\
      Forall Q (trace (run (handler a st) w st))) ->
  forall steps st,
    Forall (fun step => allowed (fst step)) steps ->
    P st ->
    P (fst (interact steps st)) /\ Forall Q (snd (interact steps st)).
Proof.
  intros Hstep steps. induction steps as [| [a w] rest IH]; intros st Hall HP.
  - split; [exact HP | constructor].
  - inversion Hall as [| step steps' Ha Hrest]; subst. cbn [fst] in Ha.
    destruct (Hstep a w st Ha HP) as [HP1 HQ1].
    destruct (IH _ Hrest HP1) as [HP2 HQ2].
    cbn [interact].
    destruct (interact rest (final (run (handler a st) w st))) as [st' tr].
    split; [exact HP2 |]. apply Forall_app. split; assumption.
Qed.

(** An invariant of every handler is an invariant of every session. *)
Lemma interact_invariant (P : ChatInterfaceState -> Prop) :
  (forall a w st, P st -> P (final (run (handler a st) w st))) ->
  forall steps st, P st -> P (fst (interact steps st)).
Proof.
  intros Hstep steps st HP.
  apply (@interact_sound (fun _ => True) P (fun _ => True)); auto.
  - intros a w st0 _ HP0. split; [now apply Hstep |].
    apply Forall_forall. trivial.
  - apply Forall_forall. trivial.
Qed.

Lemma In_sends (req : ChatRequest) (tr : list Observation) :
  In req (sends (List.map event tr)) ->
  exists o, In o tr /\ event o = EvSendMessage req.
Proof.
  induction tr as [| o tr IH]; cbn; [contradiction |].
  intros H. apply in_app_or in H as [H | H].
  - exists o. split; [now left |].
    destruct (event o); cbn in H; try contradiction.
    destruct H as [<- | []]. reflexivity.
  - destruct (IH H) as [o' [Hin He]]. exists o'. split; [now right | exact He].
Qed.

Lemma exchanges_snoc (l : list Message) (u a : Message) :
  exchanges l = true -> role u = user -> role a = assistant ->
  exchanges (l ++ [u; a]) = true.
Proof.
  intros Hl Hu Ha.
  assert (H : forall n l', List.length l' <= n -> exchanges l' = true ->
                           exchanges (l' ++ [u; a]) = true).
  { induction n as [| n IH]; intros l' Hlen Hex.
    - destruct l'; [| cbn in Hlen; lia]. cbn. now rewrite Hu, Ha.
    - destruct l' as [| x [| y l'']].
      + cbn. now rewrite Hu, Ha.
      + discriminate Hex.
      + cbn in Hex |- *. destruct (role x); try discriminate.
        destruct (role y); try discriminate.
        apply IH; [cbn in Hlen; lia | exact Hex]. }
  now apply (H (List.length l) l).
Qed.

Lemma blank_trim (s : jsstring) : blank s = false -> blank (trim s) = false.
Proof.
  intros Hb. pose proof (truthy_trim s) as Ht. rewrite Hb in Ht.
  destruct (trim s) as [| c t] eqn:E; [discriminate Ht |].
  destruct (@trim_tight s t c) as [Hhead _].
  unfold blank. cbn. now rewrite (Hhead E).
Qed.

(** X19. The loading flag never sticks.  In a session in which each
    handler completes before the next event, if no send is in flight at
    the start then none is after any number of events, whatever the
    backend and the device answer. *)
Theorem session_ends_idle
        (steps : list (Action * World)) (st : ChatInterfaceState) :
  isLoading st = false ->
  isLoading (fst (interact steps st)) = false.
Proof.
  apply (@interact_invariant (fun c => isLoading c = false)).
  intros a w c Hidle.
  handler_cases a w c; try reflexivity; try exact Hidle; try congruence.
  all: destruct (resp_suggestions resp); reflexivity.
Qed.

Lemma session_ends_idle_witness :
  isLoading initial_cells = false /\
  isLoading (fst (interact Demo.session initial_cells)) = false.
Proof.
  split; [reflexivity |].
  exact (@session_ends_idle Demo.session initial_cells eq_refl).
Defined.

(** X20. The message list is always a sequence of exchanges.  If it is a
    sequence of user messages each followed by an assistant message at
    the start of a session, it is so after every event: no handler leaves
    a user message without its answer, or an answer without its question,
    in the list once it has completed. *)
Theorem session_keeps_exchanges
        (steps : list (Action * World)) (st : ChatInterfaceState) :
  exchanges (messages st) = true ->
  exchanges (messages (fst (interact steps st))) = true.
Proof.
  apply (@interact_invariant (fun c => exchanges (messages c) = true)).
  intros a w c Hex.
  assert (Hok : forall resp : ChatResponse,
             exchanges
               ((messages c ++
                 [ {| role := user; content := trim (inputValue c);
                      timestamp := clock w; msg_agent_type := None |} ]) ++
                [ {| role := assistant; content := response resp;
                     timestamp := resp_timestamp resp;
                     msg_agent_type := Some (agent_type (agent_info resp)) |} ])
             = true).
  { intros resp. rewrite <- app_assoc. now apply exchanges_snoc. }
  handler_cases a w c; unfold final; cbn -[trim slice_0_neg1 exchanges];
    rewrite ?slice_0_neg1_snoc; try exact Hex; try reflexivity.
  all: destruct (resp_suggestions resp); apply Hok.
Qed.

Lemma session_keeps_exchanges_witness :
  exchanges (messages initial_cells) = true /\
  List.map role (messages (fst (interact Demo.session initial_cells)))
    = [user; assistant] /\
  exchanges (messages (fst (interact Demo.session initial_cells))) = true.
Proof.
  split; [reflexivity | split; [reflexivity |]].
  exact (@session_keeps_exchanges Demo.session initial_cells eq_refl).
Defined.

Lemma device_calls_none (tr : list Observation) :
  Forall (fun o => match event o with
                   | EvStart | EvStop => False
                   | _ => True
                   end) tr ->
  device_calls (List.map event tr) = [].
Proof.
  induction 1 as [| o tr Ho _ IH]; [reflexivity |].
  cbn. destruct (event o); cbn; try exact IH; contradiction.
Qed.

(** X21. No handler installs or removes the speech device.  A page that
    mounted without one stays without it for the whole session, and no
    event of the session, clicks on the microphone included, ever calls
    [start] or [stop]. *)
Theorem session_without_device_never_calls_it
        (steps : list (Action * World)) (st : ChatInterfaceState) :
  recognition st = None ->
  recognition (fst (interact steps st)) = None /\
  device_calls (List.map event (snd (interact steps st))) = [].
Proof.
  intros Hnone.
  destruct (@interact_sound
              (fun _ => True)
              (fun c => recognition c = None)
              (fun o => match event o with
                        | EvStart | EvStop => False
                        | _ => True
                        end)) with (steps := steps) (st := st)
    as [Hdev Hcalls]; [| apply Forall_forall; trivial | exact Hnone |].
  - intros a w c _ Hc.
    handler_cases a w c; try congruence;
      try (split; [assumption | repeat (constructor; cbn)]).
    all: destruct (resp_suggestions resp);
      (split; [assumption | repeat (constructor; cbn)]).
  - split; [exact Hdev | now apply device_calls_none].
Qed.

Lemma session_without_device_never_calls_it_witness :
  recognition initial_cells = None /\
  device_calls
    (List.map event (snd (interact Demo.session initial_cells))) = [].
Proof.
  split; [reflexivity |].
  exact (proj2 (@session_without_device_never_calls_it
                  Demo.session initial_cells eq_refl)).
Defined.

(** X22. Until the chat is cleared, a conversation keeps its session
    identifier: in a session without a click on Clear Chat the identifier
    is the same at the end as at the start, and every request sent on the
    way carries it. *)
Theorem session_requests_share_session_id
        (steps : list (Action * World)) (st : ChatInterfaceState) :
  Forall (fun step => fst step <> ClickClear) steps ->
  sessionId (fst (interact steps st)) = sessionId st /\
  forall req,
    In req (sends (List.map event (snd (interact steps st)))) ->
    session_id req = Some (sessionId st).
Proof.
  intros Hsteps.
  destruct (@interact_sound
              (fun a => a <> ClickClear)
              (fun c => sessionId c = sessionId st)
              (fun o => forall req, event o = EvSendMessage req ->
                                    session_id req = Some (sessionId st)))
    with (steps := steps) (st := st)
    as [Hid Hreqs]; [| exact Hsteps | reflexivity |].
  - intros a w c Ha Hc.
    assert (Hsame : forall (cells0 : ChatInterfaceState) (req : ChatRequest),
               event {| event := EvSendMessage (request_of c);
                        cells := cells0 |} = EvSendMessage req ->
               session_id req = Some (sessionId st)).
    { intros cells0 req Hev. cbn in Hev. injection Hev as <-.
      cbn. now rewrite Hc. }
    handler_cases a w c; try (now contradiction Ha);
      try (split; [exact Hc | repeat constructor];
           try apply Hsame; intros req Hev; discriminate Hev).
    all: destruct (resp_suggestions resp);
      (split; [exact Hc | repeat constructor];
       try apply Hsame; intros req Hev; discriminate Hev).
  - split; [exact Hid |]. intros req Hin.
    destruct (In_sends _ _ Hin) as [o [Ho Hev]].
    rewrite Forall_forall in Hreqs. exact (Hreqs o Ho req Hev).
Qed.

Lemma session_requests_share_session_id_witness :
  Forall (fun step => fst step <> ClickClear) Demo.session /\
  sessionId (fst (interact Demo.session Demo.mounted)) = lit "session-1".
Proof.
  assert (H : Forall (fun step : Action * World => fst step <> ClickClear)
                     Demo.session)
    by (repeat constructor; discriminate).
  split; [exact H |].
  exact (proj1 (@session_requests_share_session_id Demo.session
                  Demo.mounted H)).
Defined.

(** X23. An error that is set is an error that is shown.  The alert is
    rendered by [{error && ...}], which hides an empty string; every
    message a handler stores is non-empty, so if the error cell does not
    hold the empty string at the start of a session, then after every
    event the alert shows exactly when the cell is not [null]. *)
Theorem session_errors_are_shown
        (steps : list (Action * World)) (st : ChatInterfaceState) :
  error st <> Some [] ->
  let st' := fst (interact steps st) in
  error st' <> Some [] /\
  showError st' = match error st' with Some _ => true | None => false end.
Proof.
  intros Hst st'.
  assert (Hinv : error st' <> Some []).
  { subst st'. revert Hst.
    apply (@interact_invariant (fun c => error c <> Some [])).
    intros a w c Hc.
    handler_cases a w c; unfold final; cbn;
      try exact Hc; try discriminate.
    all: destruct (resp_suggestions resp); cbn; discriminate. }
  split; [exact Hinv |].
  unfold showError. destruct (error st') as [[| ch e] |]; try reflexivity.
  now contradiction Hinv.
Qed.

Lemma session_errors_are_shown_witness :
  error initial_cells <> Some [] /\
  showError (fst (interact Demo.session initial_cells)) = true.
Proof.
  assert (H : error initial_cells <> Some []) by discriminate.
  split; [exact H |].
  rewrite (proj2 (@session_errors_are_shown Demo.session initial_cells H)).
  reflexivity.
Defined.

(** ** The keyboard *)

(** X24. Enter sends exactly when the send button would: a key press
    calls the transport client once if the key is Enter, Shift is up and
    the button is enabled, and not at all otherwise.  With Shift down, or
    on any other key, the handler does not prevent the default action
    either, and changes nothing, so Shift+Enter is left to the textarea. *)
Theorem enter_sends_like_the_button
        (e : KeyboardEvent) (w : World) (st : ChatInterfaceState) :
  sends (events (run (snd (onKeyDown e st)) w st)) =
    (if Js.eqb (key e) (lit "Enter") && negb (shiftKey e)
        && negb (sendButton_disabled st)
     then [request_of st] else []) /\
  (Js.eqb (key e) (lit "Enter") && negb (shiftKey e) = false ->
   fst (onKeyDown e st) = false /\
   run (snd (onKeyDown e st)) w st = (tt, st, [])).
Proof.
  unfold onKeyDown, sendButton_disabled. rewrite truthy_trim.
  destruct (Js.eqb (key e) (lit "Enter") && negb (shiftKey e)); cbn [snd fst].
  - split; [| discriminate]. send_cases w st; reflexivity.
  - split; [reflexivity |]. intros _. split; reflexivity.
Qed.

Lemma enter_sends_like_the_button_witness :
  Js.eqb (lit "Enter") (lit "Enter") && negb true = false /\
  run (snd (onKeyDown {| key := lit "Enter"; shiftKey := true |} Sample.idle))
      Sample.online Sample.idle = (tt, Sample.idle, []).
Proof.
  split; [reflexivity |].
  exact (proj2 (proj2 (@enter_sends_like_the_button
                         {| key := lit "Enter"; shiftKey := true |}
                         Sample.online Sample.idle) eq_refl)).
Defined.

(** ** Rendering a message *)

Section Rendering.
Import ChatMessage.

(** [getAgentStyle] never returns [undefined]: what the table does not
    hold, the default or the prototype supplies. *)
Lemma getAgentStyle_truthy (agentType : option AgentType) :
  truthy (getAgentStyle agentType) = true.
Proof.
  unfold getAgentStyle, or_else, get.
  destruct (own_property agentStyles (property_key agentType));
    [reflexivity |].
  destruct (existsb (Js.eqb (property_key agentType)) Object_prototype);
    reflexivity.
Qed.

End Rendering.

Lemma skipn_length_app (A : Type) (l l' : list A) :
  skipn (List.length l) (l ++ l') = l'.
Proof.
  induction l as [| x l IH]; [reflexivity | exact IH].
Qed.

Section RenderedMessages.
Variable Date_parse : jsstring -> option number.
Variable distance_text : number -> jsstring.

Let render : Message -> Completion MessageView.View :=
  MessageView.render Date_parse distance_text.

(** X25. A message is rendered only if its time stamp parses: on a time
    stamp that gives an Invalid Date the component throws the
    [RangeError] of [formatDistanceToNow] and lays out nothing.  When the
    time stamp parses, the layout holds exactly one time stamp, with the
    text date-fns gives for it: a user message goes to the user side
    without a badge and with the time stamp below it; every other
    message, a system one included, goes to the assistant side with a
    badge, whatever its agent type, and the time stamp beside the
    badge. *)
Theorem every_message_shows_one_timestamp (m : Message) :
  match Date_parse (timestamp m) with
  | None => render m = Throw (lit "RangeError: Invalid time value")
  | Some t =>
      exists v,
        render m = Normal v /\
        MessageView.timestamps v = 1 /\
        MessageView.timeAgo v = distance_text t /\
        MessageView.body v = content m /\
        (role m = user ->
         MessageView.side v = MessageView.side_user /\
         MessageView.badge v = None) /\
        (role m <> user ->
         MessageView.side v = MessageView.side_assistant /\
         MessageView.badge v
           = Some (ChatMessage.getAgentStyle (msg_agent_type m)))
  end.
Proof.
  subst render.
  unfold MessageView.render, MessageView.formatDistanceToNow.
  destruct (Date_parse (timestamp m)) as [t |]; [| reflexivity].
  eexists. split; [reflexivity |].
  unfold MessageView.timestamps, MessageView.agentStyle, MessageView.isUser.
  destruct (role m); cbn;
    rewrite ?getAgentStyle_truthy; cbn;
    (split; [reflexivity |]);
    (split; [reflexivity |]);
    (split; [reflexivity |]);
    (split; [intros H; try discriminate H; split; reflexivity |]);
    intros H; try (now contradiction H); split; reflexivity.
Qed.

(** X26. What an answered send puts on the screen.  When the time stamp
    of the user message and the one the backend reports both parse, the
    two messages the send appends render as a user bubble with the
    trimmed input and no badge, then an assistant bubble with the response
    text whose badge is the table entry of the agent type the backend
    reported, when that type is one of the table's. *)
Theorem answered_send_renders_agent_badge
        (w : World) (st : ChatInterfaceState) (resp : ChatResponse)
        (s : ChatMessage.AgentStyle) (sent answered : number) :
  blank (inputValue st) = false ->
  isLoading st = false ->
  sendMessage_result w (request_of st) = Normal resp ->
  In (agent_type (agent_info resp), s) ChatMessage.agentStyles ->
  Date_parse (clock w) = Some sent ->
  Date_parse (resp_timestamp resp) = Some answered ->
  List.map render
    (skipn (List.length (messages st))
           (messages (final (run (handleSendMessage st) w st)))) =
    [ Normal
        {| MessageView.side := MessageView.side_user;
           MessageView.badge := None;
           MessageView.body := trim (inputValue st);
           MessageView.timeAgo := distance_text sent;
           MessageView.timestamp_below := true |};
      Normal
        {| MessageView.side := MessageView.side_assistant;
           MessageView.badge := Some (ChatMessage.VStyle s);
           MessageView.body := response resp;
           MessageView.timeAgo := distance_text answered;
           MessageView.timestamp_below := false |} ].
Proof.
  intros Hb Hl Hr Hs Hsent Hanswered.
  assert (Hm : messages (final (run (handleSendMessage st) w st)) =
               messages st ++
                 [ {| role := user; content := trim (inputValue st);
                      timestamp := clock w; msg_agent_type := None |};
                   {| role := assistant; content := response resp;
                      timestamp := resp_timestamp resp;
                      msg_agent_type := Some (agent_type (agent_info resp)) |} ]).
  { rewrite (@send_succeeds w st resp (conj Hb Hl) Hr).
    unfold final. cbn -[trim].
    destruct (resp_suggestions resp); cbn -[trim]; now rewrite <- app_assoc. }
  rewrite Hm, skipn_length_app. cbn [List.map]. subst render.
  unfold MessageView.render, MessageView.formatDistanceToNow,
    MessageView.agentStyle, MessageView.isUser.
  cbn -[trim ChatMessage.getAgentStyle].
  rewrite Hsent, Hanswered, getAgentStyle_truthy.
  unfold ChatMessage.getAgentStyle, ChatMessage.get.
  cbn [ChatMessage.property_key].
  now rewrite (agentStyles_own Hs).
Qed.

End RenderedMessages.

Lemma every_message_shows_one_timestamp_witness :
  MessageView.render Demo.parse Demo.ago
    {| role := system; content := lit "Session restored";
       timestamp := lit "t"; msg_agent_type := None |}
  = Throw (lit "RangeError: Invalid time value") /\
  exists v,
    MessageView.render Demo.parse Demo.ago
      {| role := system; content := lit "Session restored";
         timestamp := lit "2025-01-01T00:00:00.000Z";
         msg_agent_type := None |} = Normal v /\
    MessageView.timestamps v = 1.
Proof.
  split.
  - exact (@every_message_shows_one_timestamp Demo.parse Demo.ago
             {| role := system; content := lit "Session restored";
                timestamp := lit "t"; msg_agent_type := None |}).
  - destruct (@every_message_shows_one_timestamp Demo.parse Demo.ago
                {| role := system; content := lit "Session restored";
                   timestamp := lit "2025-01-01T00:00:00.000Z";
                   msg_agent_type := None |})
      as [v [Hv [Hone _]]].
    exists v. split; [exact Hv | exact Hone].
Defined.

Lemma answered_send_renders_agent_badge_witness :
  blank (inputValue Sample.idle) = false /\
  isLoading Sample.idle = false /\
  Demo.parse (clock Sample.online) = Some 0%float /\
  Demo.parse (resp_timestamp Sample.reply) = Some 0%float /\
  List.map (MessageView.render Demo.parse Demo.ago)
    (skipn (List.length (messages Sample.idle))
       (messages (final (run (handleSendMessage Sample.idle)
                             Sample.online Sample.idle)))) =
    [ Normal
        {| MessageView.side := MessageView.side_user;
           MessageView.badge := None;
           MessageView.body := lit "Track my order #12345";
           MessageView.timeAgo := lit "less than a minute ago";
           MessageView.timestamp_below := true |};
      Normal
        {| MessageView.side := MessageView.side_assistant;
           MessageView.badge :=
             Some (ChatMessage.VStyle
                     {| ChatMessage.icon := [0xD83D; 0xDCE6]%N;
                        ChatMessage.className := lit "orderLogistics";
                        ChatMessage.label := lit "Orders" |});
           MessageView.body := lit "Your order has shipped.";
           MessageView.timeAgo := lit "less than a minute ago";
           MessageView.timestamp_below := false |} ].
Proof.
  split; [reflexivity | split; [reflexivity |]].
  split; [reflexivity | split; [reflexivity |]].
  rewrite (@answered_send_renders_agent_badge Demo.parse Demo.ago
             Sample.online Sample.idle Sample.reply
             {| ChatMessage.icon := [0xD83D; 0xDCE6]%N;
                ChatMessage.className := lit "orderLogistics";
                ChatMessage.label := lit "Orders" |}
             0%float 0%float eq_refl eq_refl eq_refl).
  - reflexivity.
  - cbn. right; right; right; left. reflexivity.
  - reflexivity.
  - reflexivity.
Defined.

(** ** Through the API client *)

Section OverAxios.
Variable apiClient : Api.AxiosInstance.
Variables (now uuid : jsstring) (start : Completion unit).

Let w : World := Api.world apiClient now uuid start.

(** X27. With the transport calls going through the API client, Clear
    Chat is decided by one request, the DELETE on [/conversation/] followed
    by the session identifier as it is.  If axios throws, the thrown value
    reaches the console unchanged, the user is shown nothing and every
    cell keeps its value; if it answers, whatever the answer holds, the
    conversation is reset under the new identifier. *)
Theorem clear_chat_over_axios (st : ChatInterfaceState) :
  truthy (sessionId st) = true ->
  let r := run (handleClearChat st) w st in
  (forall err,
      Api.delete apiClient (lit "/conversation/" ++ sessionId st) = Throw err ->
      final r = st /\
      events r =
        [ EvClearConversation (sessionId st);
          EvError (lit "Error clearing chat:") err ]) /\
  (forall answer,
      Api.delete apiClient (lit "/conversation/" ++ sessionId st)
        = Normal answer ->
      messages (final r) = [] /\
      suggestions (final r) = [] /\
      error (final r) = None /\
      sessionId (final r) = uuid).
Proof.
  intros Hs r. subst r. split.
  - intros err Hdel.
    rewrite (@clear_fails w st Hs err);
      [split; reflexivity |].
    subst w. cbn -[lit]. unfold Api.clearConversation, Api.conversation_path.
    now rewrite Hdel.
  - intros answer Hdel.
    rewrite (@clear_succeeds w st Hs);
      [repeat split |].
    subst w. cbn -[lit]. unfold Api.clearConversation, Api.conversation_path.
    now rewrite Hdel.
Qed.

(** X28. With the transport calls going through the API client, a send
    that passes the guard is decided by one request, the POST on [/chat]
    with the trimmed input and the session identifier as its body.  If
    axios throws, the thrown value reaches the console unchanged while the
    user sees only the fixed failure message, and the message list is
    rolled back; if it answers, the assistant message shows the
    [response] field of the answer's data. *)
Theorem send_over_axios (st : ChatInterfaceState) :
  blank (inputValue st) = false ->
  isLoading st = false ->
  let body :=
    {| message := trim (inputValue st); session_id := Some (sessionId st);
       voice_input := None |} in
  let r := run (handleSendMessage st) w st in
  (forall err,
      Api.post_ChatResponse apiClient (lit "/chat") body = Throw err ->
      events r =
        [ EvSendMessage body;
          EvError (lit "Error sending message:") err;
          EvFocus ] /\
      error (final r) = Some failed_to_send /\
      messages (final r) = messages st) /\
  (forall answer,
      Api.post_ChatResponse apiClient (lit "/chat") body = Normal answer ->
      List.map content (messages (final r)) =
        List.map content (messages st)
          ++ [trim (inputValue st); response (Api.data answer)]).
Proof.
  intros Hb Hl body r. subst r body. split.
  - intros err Hpost.
    rewrite (@send_fails w st err (conj Hb Hl));
      [| subst w; unfold request_of; cbn -[lit trim];
         unfold Api.sendMessage; now rewrite Hpost].
    unfold final. cbn -[lit trim slice_0_neg1 failed_to_send].
    rewrite slice_0_neg1_snoc. repeat split.
  - intros answer Hpost.
    rewrite (@send_succeeds w st (Api.data answer) (conj Hb Hl));
      [| subst w; unfold request_of; cbn -[lit trim];
         unfold Api.sendMessage; now rewrite Hpost].
    unfold final. cbn -[trim].
    destruct (resp_suggestions (Api.data answer)); cbn -[trim];
      rewrite !map_app, <- app_assoc; reflexivity.
Qed.

End OverAxios.

Lemma clear_chat_over_axios_witness :
  truthy (sessionId Sample.chatting) = true /\
  final (run (handleClearChat Sample.chatting)
             (Api.world Demo.down (lit "t") (lit "session-2") (Normal tt))
             Sample.chatting) = Sample.chatting.
Proof.
  split; [reflexivity |].
  exact (proj1 (proj1 (@clear_chat_over_axios Demo.down (lit "t")
                         (lit "session-2") (Normal tt) Sample.chatting
                         eq_refl)
                  (lit "timeout of 30000ms exceeded") eq_refl)).
Defined.

Lemma send_over_axios_witness :
  blank (inputValue Sample.idle) = false /\
  isLoading Sample.idle = false /\
  List.map content
    (messages
       (final (run (handleSendMessage Sample.idle)
                   (Api.world Demo.up (lit "t") (lit "session-2") (Normal tt))
                   Sample.idle)))
  = [lit "Track my order #12345"; lit "Your order has shipped."].
Proof.
  split; [reflexivity | split; [reflexivity |]].
  rewrite (proj2 (@send_over_axios Demo.up (lit "t") (lit "session-2")
                    (Normal tt) Sample.idle eq_refl eq_refl)
             {| Api.data := Sample.reply |} eq_refl).
  reflexivity.
Defined.

(** ** Compositions with the remaining handlers *)

(** X29. Picking a suggestion and then sending sends that suggestion:
    the one request carries the suggestion's text, trimmed, under the
    current session.  Picking alone sends nothing. *)
Theorem suggestion_then_send
        (w w' : World) (st : ChatInterfaceState) (suggestion : jsstring) :
  blank suggestion = false ->
  isLoading st = false ->
  let r1 := run (handleSuggestionClick suggestion) w st in
  let r2 := run (handleSendMessage (final r1)) w' (final r1) in
  sends (events r1) = [] /\
  sends (events r2) =
    [ {| message := trim suggestion; session_id := Some (sessionId st);
         voice_input := None |} ].
Proof.
  intros Hb Hl r1 r2. subst r2 r1. split; [reflexivity |].
  set (st1 := final (run (handleSuggestionClick suggestion) w st)).
  assert (Hg : passes_guard st1) by (split; assumption).
  assert (Hreq : request_of st1 =
                 {| message := trim suggestion;
                    session_id := Some (sessionId st);
                    voice_input := None |}) by reflexivity.
  clearbody st1.
  destruct (sendMessage_result w' (request_of st1)) as [resp | err] eqn:Hr.
  - rewrite (@send_succeeds w' st1 resp Hg Hr). cbn -[trim].
    now rewrite Hreq.
  - rewrite (@send_fails w' st1 err Hg Hr). cbn -[trim].
    now rewrite Hreq.
Qed.

Lemma suggestion_then_send_witness :
  blank (lit "Any promotions?") = false /\
  isLoading Sample.idle = false /\
  List.map message
    (sends (events
       (run (handleSendMessage
               (final (run (handleSuggestionClick (lit "Any promotions?"))
                           Sample.online Sample.idle)))
            Sample.online
            (final (run (handleSuggestionClick (lit "Any promotions?"))
                        Sample.online Sample.idle)))))
  = [lit "Any promotions?"].
Proof.
  split; [reflexivity | split; [reflexivity |]].
  now rewrite (proj2 (@suggestion_then_send Sample.online Sample.online
                        Sample.idle (lit "Any promotions?")
                        eq_refl eq_refl)).
Defined.

(** X30. The session effect names the conversation.  It stores the
    generated identifier and touches no other cell; from then on every
    request of a send carries that identifier, and, the identifier being
    non-empty, a click on Clear Chat asks the backend to clear exactly
    that conversation. *)
Theorem session_effect_names_the_conversation
        (w w' : World) (st : ChatInterfaceState) :
  truthy (fresh_uuid w) = true ->
  let st1 := final (run sessionEffect w st) in
  st1 = with_sessionId st (fresh_uuid w) /\
  (forall req,
      In req (sends (events (run (handleSendMessage st1) w' st1))) ->
      session_id req = Some (fresh_uuid w)) /\
  clears (events (run (handleClearChat st1) w' st1)) = [fresh_uuid w].
Proof.
  intros Hu st1.
  assert (Hst1 : st1 = with_sessionId st (fresh_uuid w)) by reflexivity.
  assert (Hid : sessionId st1 = fresh_uuid w) by reflexivity.
  clearbody st1. split; [exact Hst1 | split].
  - intros req.
    send_cases w' st1; cbn -[trim]; try contradiction;
      intros [<- | []]; cbn; now rewrite Hid.
  - rewrite <- Hid in Hu.
    destruct (clearConversation_result w' (sessionId st1)) as [[] | err] eqn:Hr.
    + rewrite (@clear_succeeds w' st1 Hu Hr). cbn. now rewrite Hid.
    + rewrite (@clear_fails w' st1 Hu err Hr). cbn. now rewrite Hid.
Qed.

Lemma session_effect_names_the_conversation_witness :
  truthy (fresh_uuid Sample.online) = true /\
  clears
    (events
       (run (handleClearChat (final (run sessionEffect Sample.online
                                         initial_cells)))
            Sample.offline
            (final (run sessionEffect Sample.online initial_cells))))
  = [lit "session-2"].
Proof.
  split; [reflexivity |].
  exact (proj2 (proj2 (@session_effect_names_the_conversation
                         Sample.online Sample.offline initial_cells
                         eq_refl))).
Defined.
